(** * Token lifecycle and authenticated requests of the FHIR / Fasten MCP servers

    A shallow embedding of
    - [fhir-mcp/build/smart-auth.js]  (class [SmartAuth], the credential manager),
    - [fhir-client.js]                (class [FhirClient], the request gateway),
    - [index.js] of the Fasten server ([isTokenValid], [makeAuthenticatedRequest]),
    followed by the properties the specification states about them.

    Conventions of the embedding.
    - JavaScript numbers that the code computes with (epoch milliseconds,
      seconds of validity, HTTP status codes) are integers and are modelled
      in [Z]; NaN and fractions do not occur.  The code computes in IEEE
      doubles, which agree with [Z] as long as every operand and result
      stays within 2^53 in magnitude; the statements that let numbers of a
      credential enter arithmetic bound them accordingly ([exact]).
    - The clock is part of the world and moves only while a request is
      under way, so the reads of one synchronous stretch of code give one
      value.  The statements about expiry take [issued_at] non-zero: the
      test of [getAccessToken] then reads the clock once.
    - A property that may be missing from an object is an [option]; [None]
      reads as [undefined].  A property whose value is [null] is read like
      a missing one.
    - JSON documents are not modelled down to their characters: a text is
      either plain (not JSON), a form encoding, or the serialisation of a
      document ([Text], [JSON_stringify], [JSON_parse]).  A JSON object is
      given by the properties the program reads from it; [null], the
      primitive values and arrays are kept apart from objects ([Json]),
      since the code treats them differently.
    - Every [async] method runs to completion before the next one starts; a
      method is a function from the state before to an outcome and the state
      after.  A [throw] (a rejected promise) keeps the mutations made so far.
    - [console.error] / [console.warn] output is not part of the state. *)

From stdpp Require Import base option strings gmap.
From Stdlib Require Import ZArith Lia.

Local Open Scope Z_scope.

(* ===================================================================== *)
(** ** JavaScript values: truthiness and [||] *)
(* ===================================================================== *)

Class Truthy (A : Type) := truthy : A -> bool.

#[export] Instance truthy_string : Truthy string :=
  fun s => match s with EmptyString => false | String _ _ => true end.
#[export] Instance truthy_Z : Truthy Z := fun n => negb (n =? 0).
#[export] Instance truthy_option {A} `{Truthy A} : Truthy (option A) :=
  fun o => match o with Some a => truthy a | None => false end.

(** [a || b] *)
Definition js_or {A} `{Truthy A} (a b : A) : A := if truthy a then a else b.

(** [`${v}`] for a string that may be [undefined]. *)
Definition show (v : option string) : string :=
  match v with Some s => s | None => "undefined" end.

(* ===================================================================== *)
(** ** Data model *)
(* ===================================================================== *)

(** [interface TokenResponse] of smart-auth.d.ts.  The code tests
    [expires_in], [access_token] and [token_type] for presence, so they are
    optional here as well. *)
Record TokenResponse := mkTokenResponse {
  access_token : option string;
  token_type : option string;
  expires_in : option Z;
  refresh_token : option string;
  scope : option string;
  patient : option string;
  id_token : option string;
  issued_at : option Z
}.

#[export] Instance truthy_TokenResponse : Truthy TokenResponse := fun _ => true.

(** The fields [signIn] reads from the vendor's reply. *)
Record SignInResponse := {
  sr_token : option string;
  sr_access_token : option string;
  sr_token_type : option string;
  sr_expires_in : option Z;
  sr_refresh_token : option string
}.

Definition emptyToken : TokenResponse :=
  {| access_token := None; token_type := None; expires_in := None;
     refresh_token := None; scope := None; patient := None;
     id_token := None; issued_at := None |}.

(** An object-like value whose only property is its [issued_at], if any. *)
Definition set_issued_at_opt (stamp : option Z) : TokenResponse :=
  {| access_token := None; token_type := None; expires_in := None;
     refresh_token := None; scope := None; patient := None;
     id_token := None; issued_at := stamp |}.

(** JSON objects, by the shapes the program builds or reads. *)
Inductive JsonObject :=
| JToken (t : TokenResponse)               (* a token document *)
| JSignIn (d : SignInResponse)             (* the vendor's sign-in reply *)
| JCredentials (username password : string)(* [{ username, password }] *)
| JQuery (query : string)                  (* [{ query }] *)
| JOther (doc : string).                   (* any other object: none of the
                                              properties read below *)

(** JSON values that are neither objects nor [null]. *)
Inductive Primitive :=
| PBool (b : bool)
| PNum (n : Z)
| PStr (s : string).

#[export] Instance truthy_Primitive : Truthy Primitive :=
  fun p => match p with
           | PBool b => b
           | PNum n => truthy n
           | PStr s => truthy s
           end.

(** JSON documents: what [JSON.parse] and [response.json()] can give. *)
Inductive Json :=
| JObject (o : JsonObject)
| JNull
| JPrimitive (p : Primitive)
| JArray (items : string).                 (* an array, its items opaque *)

Coercion JObject : JsonObject >-> Json.

(** Strings exchanged with the disk and the network. *)
Inductive Text :=
| Plain (s : string)                       (* text that is not JSON *)
| Form (params : list (string * string))   (* [URLSearchParams.toString()] *)
| Stringified (j : Json).                  (* [JSON.stringify(j)] *)

(** Reading a parsed object through [TokenResponse]: the cast is free at
    run time, the properties are looked up by name. *)
Definition asTokenResponse (j : JsonObject) : TokenResponse :=
  match j with
  | JToken t => t
  | JSignIn d =>
      {| access_token := sr_access_token d; token_type := sr_token_type d;
         expires_in := sr_expires_in d; refresh_token := sr_refresh_token d;
         scope := None; patient := None; id_token := None; issued_at := None |}
  | JCredentials _ _ | JQuery _ | JOther _ => emptyToken
  end.

(** Reading a parsed object as the vendor's reply. *)
Definition asSignInResponse (j : JsonObject) : SignInResponse :=
  match j with
  | JSignIn d => d
  | JToken t =>
      {| sr_token := None; sr_access_token := access_token t;
         sr_token_type := token_type t; sr_expires_in := expires_in t;
         sr_refresh_token := refresh_token t |}
  | JCredentials _ _ | JQuery _ | JOther _ =>
      {| sr_token := None; sr_access_token := None; sr_token_type := None;
         sr_expires_in := None; sr_refresh_token := None |}
  end.

(** [this.currentToken.issued_at = v] *)
Definition set_issued_at (v : Z) (t : TokenResponse) : TokenResponse :=
  {| access_token := access_token t; token_type := token_type t;
     expires_in := expires_in t; refresh_token := refresh_token t;
     scope := scope t; patient := patient t; id_token := id_token t;
     issued_at := Some v |}.

(** What the field [currentToken] holds: whatever was assigned to it, a
    parsed document included.  An array can carry the [issued_at] that
    [saveToken] writes into it; [JSON.stringify] leaves that out again. *)
Inductive Held :=
| Null
| Prim (p : Primitive)
| Arr (items : string) (stamp : option Z)
| Object (t : TokenResponse).

#[export] Instance truthy_Held : Truthy Held :=
  fun v => match v with
           | Null => false
           | Prim p => truthy p
           | Arr _ _ | Object _ => true
           end.

(** [this.currentToken = j] for a parsed document [j]. *)
Definition hold (j : Json) : Held :=
  match j with
  | JObject o => Object (asTokenResponse o)
  | JNull => Null
  | JPrimitive p => Prim p
  | JArray items => Arr items None
  end.

(** The document [JSON.stringify(v)] writes. *)
Definition document (v : Held) : Json :=
  match v with
  | Null => JNull
  | Prim p => JPrimitive p
  | Arr items _ => JArray items
  | Object t => JObject (JToken t)
  end.

(** The properties of [v] as [v?.name] reads them: those of an object, the
    written [issued_at] of an array, and [undefined] throughout for a
    primitive value and for [null].  ([v.name] without [?.] throws on
    [null]; the callers see to that.) *)
Definition view (v : Held) : TokenResponse :=
  match v with
  | Object t => t
  | Arr _ stamp => set_issued_at_opt stamp
  | Prim _ | Null => emptyToken
  end.

(** [v.issued_at = t]: objects and arrays take the property, a primitive
    value does not (the module is strict code), [null] has no properties. *)
Definition write_issued_at (t : Z) (v : Held) : option Held :=
  match v with
  | Object tok => Some (Object (set_issued_at t tok))
  | Arr items _ => Some (Arr items (Some t))
  | Prim _ | Null => None
  end.

(** The properties [signIn] reads from a parsed reply: [None] where the
    read throws ([null]); a primitive value or an array has none of them. *)
Definition reply_properties (j : Json) : option SignInResponse :=
  match j with
  | JObject o => Some (asSignInResponse o)
  | JNull => None
  | JPrimitive _ | JArray _ =>
      Some {| sr_token := None; sr_access_token := None; sr_token_type := None;
              sr_expires_in := None; sr_refresh_token := None |}
  end.

(** Failures.  Each constructor is one [throw] site (or one platform
    exception); the comment gives the message of the [Error]. *)
Inductive Error :=
| NoCredential            (* 'No token available. Please authenticate first.' *)
| TokenExpiredNoRefresh   (* 'Token is expired and no refresh token is available' *)
| NoRefreshToken          (* 'No refresh token available' *)
| TokenExchangeFailed (status : Z) (statusText : string)
                          (* `Token exchange failed: ${status} ${statusText}` *)
| TokenRefreshFailed (status : Z) (statusText : string)
                          (* `Token refresh failed: ${status} ${statusText}` *)
| AuthenticationFailed (status : Z) (statusText : string) (body : Text)
                          (* `Authentication failed (${status} ${statusText}): ${errorText}` *)
| NoAccessToken           (* 'No access token available. Please authenticate first.' *)
| QueryExecutionFailed (status : Z) (statusText : string) (body : Text)
                          (* `Query execution failed (${status} ${statusText}): ${errorText}` *)
| FhirRequestFailed (status : Z) (statusText : string)
                          (* `FHIR request failed: ${status} ${statusText}` *)
| NoAuthToken             (* "No authentication token available. Please set a token ..." *)
| AuthenticationExpired   (* "Authentication token is invalid or has expired. ..." *)
| ApiRequestFailed (status : Z)
                          (* `API request failed with status: ${status}` *)
| TransportFailure (reason : string)   (* [fetch] rejected *)
| SyntaxError                          (* [JSON.parse] / [response.json()] *)
| TypeError (reason : string)          (* invalid URL; property read on
                                          [null]; property written on a
                                          primitive value *)
| FsError (reason : string).           (* a [fs] call threw *)

Inductive Result (A : Type) :=
| Ok (a : A)
| Throw (e : Error).
Arguments Ok {A} a.
Arguments Throw {A} e.

(* ===================================================================== *)
(** ** The platform: clock, disk, network *)
(* ===================================================================== *)

Record Request := {
  req_url : string;
  req_method : option string;
  req_headers : gmap string string;
  req_body : option Text
}.

Record Response := {
  status : Z;
  statusText : string;
  body : Text
}.

(** [response.ok] *)
Definition ok (r : Response) : bool := (200 <=? status r) && (status r <=? 299).

Inductive Outcome :=
| Reply (r : Response)
| NetworkError (reason : string).

(** What one [fetch] brings back, and how long it took. *)
Record Exchange := { took : Z; outcome : Outcome }.

Inductive FileNode :=
| File (content : Text)
| Unreadable.                 (* the path exists, reading it throws *)

Record World := {
  now : Z;                                        (* [Date.now()] *)
  homedir : string;                               (* [os.homedir()] *)
  files : gmap string FileNode;
  writable : bool;                                (* the disk takes writes *)
  server : list Request -> Request -> Exchange;   (* the remote side *)
  sent : list Request                             (* requests issued so far *)
}.

Definition tick (d : Z) (w : World) : World :=
  {| now := now w + d; homedir := homedir w; files := files w;
     writable := writable w; server := server w; sent := sent w |}.

Definition record_request (r : Request) (w : World) : World :=
  {| now := now w; homedir := homedir w; files := files w;
     writable := writable w; server := server w; sent := sent w ++ [r] |}.

Definition with_files (f : gmap string FileNode) (w : World) : World :=
  {| now := now w; homedir := homedir w; files := f;
     writable := writable w; server := server w; sent := sent w |}.

(* ===================================================================== *)
(** ** Methods as state transformers *)
(* ===================================================================== *)

(** The state a method of an object of type [T] runs in. *)
Record St (T : Type) := mkSt { this : T; world : World }.
Arguments mkSt {T} this world.
Arguments this {T} s.
Arguments world {T} s.

Definition M (T A : Type) : Type := St T -> Result A * St T.

Definition ret {T A} (a : A) : M T A := fun s => (Ok a, s).

Definition throw {T A} (e : Error) : M T A := fun s => (Throw e, s).

Definition bind {T A B} (m : M T A) (k : A -> M T B) : M T B :=
  fun s => match m s with
           | (Ok a, s') => k a s'
           | (Throw e, s') => (Throw e, s')
           end.

(** [try { m } catch (error) { h error }] *)
Definition try_catch {T A} (m : M T A) (h : Error -> M T A) : M T A :=
  fun s => match m s with
           | (Ok a, s') => (Ok a, s')
           | (Throw e, s') => h e s'
           end.

Definition get_this {T} : M T T := fun s => (Ok (this s), s).
Definition set_this {T} (t : T) : M T unit := fun s => (Ok tt, mkSt t (world s)).
Definition get_world {T} : M T World := fun s => (Ok (world s), s).
Definition set_world {T} (w : World) : M T unit := fun s => (Ok tt, mkSt (this s) w).

Declare Scope js_scope.
Delimit Scope js_scope with js.
Notation "x <- m ;; k" := (bind m (fun x => k))
  (at level 100, m at next level, k at level 200, right associativity) : js_scope.
Notation "m ;; k" := (bind m (fun _ => k))
  (at level 100, k at level 200, right associativity) : js_scope.
Local Open Scope js_scope.

(** Running a method of a component held in a field: [get] reads the
    reference, [put] stores what the callee left in the object. *)
Definition zoom {T U A} (get : T -> U) (put : U -> T -> T) (m : M U A) : M T A :=
  fun s => let '(r, s') := m (mkSt (get (this s)) (world s)) in
           (r, mkSt (put (this s') (this s)) (world s')).

Section Platform.
Context {T : Type}.

Definition Date_now : M T Z := w <- get_world ;; ret (now w).

(** [fetch(url, { method, headers, body })]: the request leaves, time
    passes, and the promise resolves with a response or rejects. *)
Definition fetch (url : string) (method : option string)
    (headers : gmap string string) (payload : option Text) : M T Response :=
  w <- get_world ;;
  let req := {| req_url := url; req_method := method;
                req_headers := headers; req_body := payload |} in
  let ex := server w (sent w) req in
  set_world (tick (took ex) (record_request req w)) ;;
  match outcome ex with
  | Reply r => ret r
  | NetworkError reason => throw (TransportFailure reason)
  end.

Definition JSON_stringify (j : Json) : Text := Stringified j.

Definition JSON_parse (data : Text) : M T Json :=
  match data with
  | Stringified j => ret j
  | Plain _ | Form _ => throw SyntaxError
  end.

(** [response.json()] and [response.text()] *)
Definition response_json (r : Response) : M T Json := JSON_parse (body r).
Definition response_text (r : Response) : M T Text := ret (body r).

Definition fs_existsSync (p : string) : M T bool :=
  w <- get_world ;; ret (bool_decide (is_Some (files w !! p))).

Definition fs_readFileSync (p : string) : M T Text :=
  w <- get_world ;;
  match files w !! p with
  | Some (File content) => ret content
  | Some Unreadable => throw (FsError "EACCES")
  | None => throw (FsError "ENOENT")
  end.

Definition fs_writeFileSync (p : string) (data : Text) : M T unit :=
  w <- get_world ;;
  if writable w then set_world (with_files (<[p := File data]> (files w)) w)
  else throw (FsError "EACCES").

Definition fs_unlinkSync (p : string) : M T unit :=
  w <- get_world ;;
  match files w !! p with
  | None => throw (FsError "ENOENT")
  | Some _ =>
      if writable w then set_world (with_files (delete p (files w)) w)
      else throw (FsError "EACCES")
  end.
End Platform.

(* ===================================================================== *)
(** ** smart-auth.js: class SmartAuth *)
(* ===================================================================== *)

Module SmartAuth.

Record Options := {
  o_clientId : string;
  o_clientSecret : option string;
  o_redirectUri : string;
  o_scope : string;
  o_authorizeUrl : string;
  o_tokenUrl : string;
  o_baseUrl : option string
}.

Record Obj := {
  clientId : string;
  clientSecret : option string;
  redirectUri : string;
  scope : string;
  authorizeUrl : string;
  tokenUrl : string;
  baseUrl : string;
  tokenStorage : string;
  currentToken : Held
}.

Definition with_currentToken (c : Held) (o : Obj) : Obj :=
  {| clientId := clientId o; clientSecret := clientSecret o;
     redirectUri := redirectUri o; scope := scope o;
     authorizeUrl := authorizeUrl o; tokenUrl := tokenUrl o;
     baseUrl := baseUrl o; tokenStorage := tokenStorage o;
     currentToken := c |}.

(** [this.currentToken = c] *)
Definition set_currentToken (c : Held) : M Obj unit :=
  self <- get_this ;; set_this (with_currentToken c self).

(** [return tokenResponse], after [this.currentToken = tokenResponse] and
    [this.saveToken()]: the value the field holds, with what [saveToken]
    wrote into it (an object or array is shared, not copied). *)
Definition return_current : M Obj Held :=
  self <- get_this ;; ret (currentToken self).

(** [if (this.clientSecret) params.append('client_secret', this.clientSecret)] *)
Definition secret_param (self : Obj) : list (string * string) :=
  if truthy (clientSecret self)
  then [("client_secret", show (clientSecret self))]
  else [].

Definition saveToken : M Obj unit :=
  self <- get_this ;;
  if truthy (currentToken self)
  then
    (if negb (truthy (issued_at (view (currentToken self))))
     then (t <- Date_now ;;
           match write_issued_at t (currentToken self) with
           | Some v => set_currentToken v
           | None => throw (TypeError "Cannot create property 'issued_at'")
           end)
     else ret tt) ;;
    self' <- get_this ;;
    try_catch
      (fs_writeFileSync (tokenStorage self')
         (JSON_stringify (document (currentToken self'))))
      (fun _ => ret tt)
  else ret tt.

Definition loadToken : M Obj unit :=
  try_catch
    (self <- get_this ;;
     present <- fs_existsSync (tokenStorage self) ;;
     if (present : bool)
     then (data <- fs_readFileSync (tokenStorage self) ;;
           j <- JSON_parse data ;;
           set_currentToken (hold j))
     else ret tt)
    (fun _ => set_currentToken Null).

Definition clearToken : M Obj unit :=
  set_currentToken Null ;;
  try_catch
    (self <- get_this ;;
     present <- fs_existsSync (tokenStorage self) ;;
     if (present : bool) then fs_unlinkSync (tokenStorage self) else ret tt)
    (fun _ => ret tt).

(** [path.join(os.homedir(), '.fhir-mcp-tokens.json')] *)
Definition path_join (dir name : string) : string := dir +:+ "/" +:+ name.

(** [new SmartAuth(options)].  [URL_origin u] is [new URL(u).origin],
    [None] when the constructor of [URL] throws. *)
Definition constructor (URL_origin : string -> option string)
    (options : Options) (w : World) : Result Obj * World :=
  let base :=
    if truthy (o_baseUrl options) then o_baseUrl options
    else URL_origin (o_authorizeUrl options) in
  match base with
  | None => (Throw (TypeError "Invalid URL"), w)
  | Some b =>
      let self :=
        {| clientId := o_clientId options;
           clientSecret := js_or (o_clientSecret options) None;
           redirectUri := o_redirectUri options;
           scope := o_scope options;
           authorizeUrl := o_authorizeUrl options;
           tokenUrl := o_tokenUrl options;
           baseUrl := b;
           tokenStorage := path_join (homedir w) ".fhir-mcp-tokens.json";
           currentToken := Null |} in
      match loadToken (mkSt self w) with
      | (Ok _, s) => (Ok (this s), world s)
      | (Throw e, s) => (Throw e, world s)
      end
  end.

Definition form_headers : gmap string string :=
  {[ "Content-Type" := "application/x-www-form-urlencoded" ]}.

Definition exchangeCodeForToken (code : string) : M Obj Held :=
  self <- get_this ;;
  let params :=
    [("grant_type", "authorization_code"); ("code", code);
     ("client_id", clientId self); ("redirect_uri", redirectUri self)]
    ++ secret_param self in
  response <- fetch (tokenUrl self) (Some "POST") form_headers (Some (Form params)) ;;
  if negb (ok response)
  then throw (TokenExchangeFailed (status response) (statusText response))
  else
    tokenResponse <- response_json response ;;
    set_currentToken (hold tokenResponse) ;;
    saveToken ;;
    return_current.

Definition refreshToken (refreshToken : option string) : M Obj Held :=
  self <- get_this ;;
  let tokenToUse := js_or refreshToken (refresh_token (view (currentToken self))) in
  if negb (truthy tokenToUse)
  then throw NoRefreshToken
  else
    let params :=
      [("grant_type", "refresh_token"); ("refresh_token", show tokenToUse);
       ("client_id", clientId self)]
      ++ secret_param self in
    response <- fetch (tokenUrl self) (Some "POST") form_headers (Some (Form params)) ;;
    if negb (ok response)
    then throw (TokenRefreshFailed (status response) (statusText response))
    else
      tokenResponse <- response_json response ;;
      set_currentToken (hold tokenResponse) ;;
      saveToken ;;
      return_current.

Definition json_headers : gmap string string :=
  {[ "Content-Type" := "application/json" ]}.

Definition signIn (username password : string) : M Obj Held :=
  self <- get_this ;;
  let signInUrl := baseUrl self +:+ "/api/auth/signin" in
  response <- fetch signInUrl (Some "POST") json_headers
                (Some (JSON_stringify (JCredentials username password))) ;;
  if negb (ok response)
  then (errorText <- response_text response ;;
        throw (AuthenticationFailed (status response) (statusText response) errorText))
  else
    j <- response_json response ;;
    responseData <- match reply_properties j with
                    | Some d => ret d
                    | None => throw (TypeError "Cannot read properties of null")
                    end ;;
    t <- Date_now ;;
    let tokenResponse :=
      mkTokenResponse
        (* access_token *) (js_or (sr_token responseData) (sr_access_token responseData))
        (* token_type *) (js_or (sr_token_type responseData) (Some "Bearer"))
        (* expires_in *) (js_or (sr_expires_in responseData) (Some 3600))
        (* refresh_token *) (sr_refresh_token responseData)
        (* scope, patient, id_token: not in the literal *) None None None
        (* issued_at *) (Some t) in
    set_currentToken (Object tokenResponse) ;;
    saveToken ;;
    return_current.

(** The value of a number property in arithmetic. *)
Definition num (v : option Z) : Z := default 0 v.

Definition getAccessToken : M Obj (option string) :=
  self <- get_this ;;
  if negb (truthy (currentToken self))
  then throw NoCredential
  else
    let tok := view (currentToken self) in
    expiresAt <- (if truthy (expires_in tok)
                  then (issued <- (if truthy (issued_at tok)
                                   then ret (issued_at tok)
                                   else (t <- Date_now ;; ret (Some t))) ;;
                        ret (Some (num issued + num (expires_in tok) * 1000)))
                  else ret None) ;;
    stale <- (if truthy expiresAt
              then (t <- Date_now ;; ret (t >? num expiresAt - 5 * 60 * 1000))
              else ret false) ;;
    (if (stale : bool)
     then
       if truthy (refresh_token tok)
       then (_ <- refreshToken (refresh_token tok) ;; ret tt)
       else throw TokenExpiredNoRefresh
     else ret tt) ;;
    self' <- get_this ;;
    match currentToken self' with
    | Null => throw (TypeError "Cannot read properties of null")
    | v => ret (access_token (view v))
    end.

End SmartAuth.

(* ===================================================================== *)
(** ** fhir-client.js: class FhirClient *)
(* ===================================================================== *)

Module FhirClient.

(** The [smartAuth] field is a reference to the manager object.  The
    object is kept inside the client: whatever a call through the
    reference does to the manager is stored back ([call_smartAuth]). *)
Record Obj := {
  baseUrl : string;
  accessToken : option string;
  smartAuth : option SmartAuth.Obj
}.

(** The [options] argument of [request] (a [RequestInit]). *)
Record RequestInit := {
  ri_method : option string;
  ri_headers : option (gmap string string);
  ri_body : option Text
}.

(** [options = {}] *)
Definition no_options : RequestInit :=
  {| ri_method := None; ri_headers := None; ri_body := None |}.

Definition constructor (baseUrl : string) (smartAuth : option SmartAuth.Obj) : Obj :=
  {| baseUrl := baseUrl; accessToken := None; smartAuth := smartAuth |}.

Definition setAccessToken (token : string) : M Obj unit :=
  self <- get_this ;;
  set_this {| baseUrl := baseUrl self; accessToken := Some token;
              smartAuth := smartAuth self |}.

Definition with_smartAuth (sa : SmartAuth.Obj) (o : Obj) : Obj :=
  {| baseUrl := baseUrl o; accessToken := accessToken o; smartAuth := Some sa |}.

(** [await this.smartAuth.m(...)] *)
Definition call_smartAuth {A} (sa : SmartAuth.Obj) (m : M SmartAuth.Obj A) : M Obj A :=
  zoom (fun _ => sa) with_smartAuth m.

Definition bearer (token : option string) : string := "Bearer " +:+ show token.

Definition executeQuery (query : string) : M Obj Json :=
  self <- get_this ;;
  token <- match smartAuth self with
           | Some sa =>
               try_catch
                 (call_smartAuth sa SmartAuth.getAccessToken)
                 (fun _ => if truthy (accessToken self)
                           then ret (accessToken self)
                           else ret None)
           | None =>
               if truthy (accessToken self) then ret (accessToken self) else ret None
           end ;;
  if negb (truthy token)
  then throw NoAccessToken
  else
    let queryUrl := baseUrl self +:+ "/api/secure/query" in
    response <- fetch queryUrl (Some "POST")
                  (<["Authorization" := bearer token]>
                     {[ "Content-Type" := "application/json" ]})
                  (Some (JSON_stringify (JQuery query))) ;;
    if negb (ok response)
    then (errorText <- response_text response ;;
          throw (QueryExecutionFailed (status response) (statusText response) errorText))
    else response_json response.

Section Request.
(** [URL_resolve path base] is [new URL(path, base).toString()], [None]
    when the constructor of [URL] throws. *)
Variable URL_resolve : string -> string -> option string.

Definition default_headers : gmap string string :=
  <["Content-Type" := "application/fhir+json"]>
    {[ "Accept" := "application/fhir+json" ]}.

Definition request (path : string) (options : RequestInit) : M Obj Json :=
  self <- get_this ;;
  match URL_resolve path (baseUrl self) with
  | None => throw (TypeError "Invalid URL")
  | Some url =>
      let headers := default ∅ (ri_headers options) ∪ default_headers in
      headers <-
        match smartAuth self with
        | Some sa =>
            try_catch
              (token <- call_smartAuth sa SmartAuth.getAccessToken ;;
               ret (<["Authorization" := bearer token]> headers))
              (fun _ => if truthy (accessToken self)
                        then ret (<["Authorization" := bearer (accessToken self)]> headers)
                        else ret headers)
        | None =>
            if truthy (accessToken self)
            then ret (<["Authorization" := bearer (accessToken self)]> headers)
            else ret headers
        end ;;
      response <- fetch url (ri_method options) headers (ri_body options) ;;
      if negb (ok response)
      then throw (FhirRequestFailed (status response) (statusText response))
      else response_json response
  end.
Definition getPatient (id : string) : M Obj Json :=
  request ("Patient/" +:+ id) no_options.

Definition getPatientConditions (patientId : string) : M Obj Json :=
  request ("Condition?patient=" +:+ patientId) no_options.

Definition getPatientMedications (patientId : string) : M Obj Json :=
  request ("MedicationRequest?patient=" +:+ patientId) no_options.

Definition getPatientObservations (patientId : string) (code : option string)
    : M Obj Json :=
  let url := "Observation?patient=" +:+ patientId in
  let url := if truthy code then url +:+ "&code=" +:+ show code else url in
  request url no_options.

Definition getPatientAllergies (patientId : string) : M Obj Json :=
  request ("AllergyIntolerance?patient=" +:+ patientId) no_options.

Definition getPatientImmunizations (patientId : string) : M Obj Json :=
  request ("Immunization?patient=" +:+ patientId) no_options.

Definition getPatientProcedures (patientId : string) : M Obj Json :=
  request ("Procedure?patient=" +:+ patientId) no_options.

Definition getPatientEncounters (patientId : string) : M Obj Json :=
  request ("Encounter?patient=" +:+ patientId) no_options.
End Request.

End FhirClient.

(* ===================================================================== *)
(** ** tools.js: the handlers that only need the client *)
(* ===================================================================== *)

Module FhirTools.

(** The [text] of a result. *)
Inductive ToolText :=
| Pretty (j : Json)          (* [JSON.stringify(result, null, 2)] *)
| PrettySuccess              (* [JSON.stringify({ success: true }, null, 2)] *)
| PrettySummary (patient conditions medications allergies observations : Json)
                             (* [JSON.stringify(summary, null, 2)] *)
| ErrorMessage (e : Error).  (* [`Error: ${error.message}`] *)

(** [{ content: [{ type: 'text', text }], isError }]; [isError] is left out
    of the result of a handler that succeeded. *)
Record ToolResult := { text : ToolText; isError : bool }.

Definition success (t : ToolText) : ToolResult := {| text := t; isError := false |}.
Definition failure (e : Error) : ToolResult := {| text := ErrorMessage e; isError := true |}.

Section Handlers.
Variable URL_resolve : string -> string -> option string.

(** [get_observation] *)
Definition get_observation (patientId code : string) : M FhirClient.Obj ToolResult :=
  try_catch
    (result <- FhirClient.request URL_resolve
                 ("Observation?patient=" +:+ patientId +:+ "&code=" +:+ code)
                 FhirClient.no_options ;;
     ret (success (Pretty result)))
    (fun error => ret (failure error)).

(** [set_access_token] *)
Definition set_access_token (accessToken : string) : M FhirClient.Obj ToolResult :=
  try_catch
    (FhirClient.setAccessToken accessToken ;;
     ret (success PrettySuccess))
    (fun error => ret (failure error)).

(** [execute_query] *)
Definition execute_query (query : string) : M FhirClient.Obj ToolResult :=
  try_catch
    (result <- FhirClient.executeQuery query ;;
     ret (success (Pretty result)))
    (fun error => ret (failure error)).

(** [get_patient_summary] *)
Definition get_patient_summary (patientId : string) : M FhirClient.Obj ToolResult :=
  try_catch
    (patient <- FhirClient.getPatient URL_resolve patientId ;;
     conditions <- FhirClient.getPatientConditions URL_resolve patientId ;;
     medications <- FhirClient.getPatientMedications URL_resolve patientId ;;
     allergies <- FhirClient.getPatientAllergies URL_resolve patientId ;;
     observations <- FhirClient.getPatientObservations URL_resolve patientId None ;;
     ret (success (PrettySummary patient conditions medications allergies observations)))
    (fun error => ret (failure error)).
End Handlers.

End FhirTools.

(* ===================================================================== *)
(** ** index.js of the Fasten server: the module-level token *)
(* ===================================================================== *)

Module Fasten.

Definition FASTEN_BASE_URL : string := "https://firefly-optimum-initially.ngrok-free.app".
Definition API_BASE_URL : string := FASTEN_BASE_URL.

(** The module's variables: [let authToken = null]. *)
Record Globals := { authToken : option string }.

Definition initial : Globals := {| authToken := None |}.

Definition set_authToken (v : option string) : M Globals unit :=
  set_this {| authToken := v |}.

Definition auth_headers (token : string) : gmap string string :=
  <["Content-Type" := "application/json"]>
    {[ "Authorization" := "Bearer " +:+ token ]}.

Definition isTokenValid (token : string) : M Globals bool :=
  try_catch
    (response <- fetch (API_BASE_URL +:+ "/secure/summary") None
                   (auth_headers token) None ;;
     ret (status response =? 200))
    (fun _ => ret false).

(** [method = "GET"] when the argument is left out. *)
Definition makeAuthenticatedRequest (endpoint : string)
    (method : option string) (payload : option Json) : M Globals Json :=
  g <- get_this ;;
  if negb (truthy (authToken g))
  then throw NoAuthToken
  else
    let method := default "GET" method in
    let options_body :=
      if bool_decide (is_Some payload)
         && (String.eqb method "POST" || String.eqb method "PUT")
      then JSON_stringify <$> payload
      else None in
    try_catch
      (response <- fetch (API_BASE_URL +:+ endpoint) (Some method)
                     (auth_headers (show (authToken g))) options_body ;;
       if negb (ok response)
       then
         if status response =? 401
         then (set_authToken None ;; throw AuthenticationExpired)
         else throw (ApiRequestFailed (status response))
       else response_json response)
      (fun error => throw error).

End Fasten.

(* ===================================================================== *)
(** ** index.js of the Fasten server: the tools *)
(* ===================================================================== *)

Module FastenTools.
Import Fasten.

(** The [text] of a result: a fixed sentence, or an introduction followed
    by a pretty-printed document or by [getErrorMessage(error)]. *)
Inductive ToolText :=
| Fixed (sentence : string)
| WithData (intro : string) (data : Json)
| WithError (intro : string) (e : Error).

(** [check-auth-status] *)
Definition check_auth_status : M Globals ToolText :=
  g <- get_this ;;
  if negb (truthy (authToken g))
  then ret (Fixed "No authentication token is currently set. Please set a token using the 'set-auth-token' tool.")
  else
    isValid <- isTokenValid (show (authToken g)) ;;
    if negb isValid
    then (set_authToken None ;;
          ret (Fixed "The authentication token is invalid or has expired. Please provide a new token using the 'set-auth-token' tool."))
    else ret (Fixed "You have a valid authentication token for Fasten and can make API requests.").

(** [set-auth-token] *)
Definition set_auth_token (token : string) : M Globals ToolText :=
  set_authToken (Some token) ;;
  isValid <- isTokenValid token ;;
  if negb isValid
  then (set_authToken None ;;
        ret (Fixed "The provided token appears to be invalid. Please check the token and try again."))
  else ret (Fixed "Authentication token saved and validated successfully. You can now make requests to the Fasten API.").

(** [clear-auth-token] *)
Definition clear_auth_token : M Globals ToolText :=
  set_authToken None ;;
  ret (Fixed "Authentication token has been cleared. You will need to set a new token to access Fasten API.").

(** [get-summary] *)
Definition get_summary : M Globals ToolText :=
  try_catch
    (data <- makeAuthenticatedRequest "/secure/summary" None None ;;
     ret (WithData "Summary data retrieved successfully:" data))
    (fun error => ret (WithError "Error retrieving summary data:" error)).

(** [delete-account] *)
Definition delete_account : M Globals ToolText :=
  try_catch
    (data <- makeAuthenticatedRequest "/secure/account/me" (Some "DELETE") None ;;
     set_authToken None ;;
     ret (WithData "Account deleted successfully:" data))
    (fun error => ret (WithError "Error deleting account:" error)).

End FastenTools.

(* ===================================================================== *)
(** ** Vocabulary of the statements *)
(* ===================================================================== *)

(** The world once [req] has been sent and answered. *)
Definition after_fetch (w : World) (req : Request) : World :=
  tick (took (server w (sent w) req)) (record_request req w).

(** What the remote side answers to [req] in [w]. *)
Definition answer (w : World) (req : Request) : Outcome :=
  outcome (server w (sent w) req).

Definition with_writable (b : bool) (w : World) : World :=
  {| now := now w; homedir := homedir w; files := files w;
     writable := b; server := server w; sent := sent w |}.

Definition with_now (t : Z) (w : World) : World :=
  {| now := t; homedir := homedir w; files := files w;
     writable := writable w; server := server w; sent := sent w |}.

Module Sends.
Import SmartAuth.

(** The request of [exchangeCodeForToken code]. *)
Definition exchange (self : Obj) (code : string) : Request :=
  {| req_url := tokenUrl self; req_method := Some "POST";
     req_headers := form_headers;
     req_body := Some (Form ([("grant_type", "authorization_code"); ("code", code);
                              ("client_id", clientId self);
                              ("redirect_uri", redirectUri self)]
                             ++ secret_param self)) |}.

(** The request of [refreshToken] when it uses the refresh token [rt]. *)
Definition refresh (self : Obj) (rt : option string) : Request :=
  {| req_url := tokenUrl self; req_method := Some "POST";
     req_headers := form_headers;
     req_body := Some (Form ([("grant_type", "refresh_token");
                              ("refresh_token", show rt);
                              ("client_id", clientId self)]
                             ++ secret_param self)) |}.

(** The request of [signIn username password]. *)
Definition sign_in (self : Obj) (username password : string) : Request :=
  {| req_url := baseUrl self +:+ "/api/auth/signin"; req_method := Some "POST";
     req_headers := json_headers;
     req_body := Some (JSON_stringify (JCredentials username password)) |}.
End Sends.

(** What [saveToken] leaves in memory and on disk. *)
Definition stamped (t : Z) (tok : TokenResponse) : TokenResponse :=
  if truthy (issued_at tok) then tok else set_issued_at t tok.

Definition persisted (path : string) (tok : TokenResponse) (w : World) : World :=
  if writable w
  then with_files (<[path := File (JSON_stringify (JToken tok))]> (files w)) w
  else w.

(** The same for an array, which is written without its [issued_at]. *)
Definition persisted_array (path : string) (items : string) (w : World) : World :=
  if writable w
  then with_files (<[path := File (JSON_stringify (JArray items))]> (files w)) w
  else w.

(** A token file from which nothing can be loaded. *)
Definition unusable (n : FileNode) : Prop :=
  match n with
  | Unreadable | File (Plain _) | File (Form _) => True
  | File (Stringified _) => False
  end.

(** The outcome of storing the token document [tok] as the live credential
    in world [w]: [this.currentToken = tok; this.saveToken(); return tok]. *)
Definition installed (self : SmartAuth.Obj) (tok : TokenResponse) (w : World)
    : Result Held * St SmartAuth.Obj :=
  (Ok (Object (stamped (now w) tok)),
   mkSt (SmartAuth.with_currentToken (Object (stamped (now w) tok)) self)
        (persisted (SmartAuth.tokenStorage self) (stamped (now w) tok) w)).

(** The same for any parsed document [j]: an object is installed as above;
    [null] and the falsy primitive values are stored and nothing is saved;
    a truthy primitive value is stored and [saveToken] then fails on the
    write of [issued_at]; an array is stored, stamped and saved. *)
Definition accepted (self : SmartAuth.Obj) (j : Json) (w : World)
    : Result Held * St SmartAuth.Obj :=
  match j with
  | JObject o => installed self (asTokenResponse o) w
  | JNull => (Ok Null, mkSt (SmartAuth.with_currentToken Null self) w)
  | JPrimitive p =>
      (if truthy p
       then Throw (TypeError "Cannot create property 'issued_at'")
       else Ok (Prim p),
       mkSt (SmartAuth.with_currentToken (Prim p) self) w)
  | JArray items =>
      (Ok (Arr items (Some (now w))),
       mkSt (SmartAuth.with_currentToken (Arr items (Some (now w))) self)
            (persisted_array (SmartAuth.tokenStorage self) items w))
  end.

(** The last step of a read: [this.currentToken.access_token]. *)
Definition read_back (s : St SmartAuth.Obj) : Result (option string) * St SmartAuth.Obj :=
  match SmartAuth.currentToken (this s) with
  | Null => (Throw (TypeError "Cannot read properties of null"), s)
  | v => (Ok (access_token (view v)), s)
  end.

(** What a read returns once its refresh was answered with the 2xx
    document [j]: the access token of an object; nothing a caller can use
    of an array or a falsy primitive value; a [TypeError] otherwise, from
    [saveToken] for a truthy primitive value and from the read for [null]. *)
Definition read_after_refresh (j : Json) : Result (option string) :=
  match j with
  | JObject o => Ok (access_token (asTokenResponse o))
  | JNull => Throw (TypeError "Cannot read properties of null")
  | JPrimitive p =>
      if truthy p then Throw (TypeError "Cannot create property 'issued_at'")
      else Ok None
  | JArray _ => Ok None
  end.

(** The refresh token [refreshToken arg] goes by. *)
Definition tokenToUse (self : SmartAuth.Obj) (arg : option string) : option string :=
  js_or arg (refresh_token (view (SmartAuth.currentToken self))).

(** Magnitudes of [expires_in] and [issued_at] for which the doubles of the
    code compute the horizon and the threshold exactly. *)
Definition exact (e i : Z) : Prop :=
  Z.abs (e * 1000) <= 2 ^ 51 /\ Z.abs i <= 2 ^ 51.

(** Clock values: [Date.now()] is an integer a double represents. *)
Definition representable (t : Z) : Prop := Z.abs t <= 2 ^ 53.

(** Five minutes, in milliseconds. *)
Definition margin : Z := 5 * 60 * 1000.

(** The expiry test of [getAccessToken] at clock value [t]. *)
Definition expiresAt (tok : TokenResponse) (t : Z) : option Z :=
  if truthy (expires_in tok)
  then Some (SmartAuth.num (js_or (issued_at tok) (Some t))
             + SmartAuth.num (expires_in tok) * 1000)
  else None.

Definition near_expiry (tok : TokenResponse) (t : Z) : bool :=
  truthy (expiresAt tok t) && (t >? SmartAuth.num (expiresAt tok t) - 5 * 60 * 1000).

(** The canonical credential for the vendor reply [d], obtained at [stamp]:
    access token from [token] or else [access_token], kind defaulting to
    Bearer, expiry defaulting to 3600 seconds, refresh token preserved,
    issuance stamped.  Empty strings and a zero expiry count as absent,
    as [||] has it; the other properties of the interface are not set. *)
Definition canonical_for (d : SignInResponse) (stamp : Z) (tok : TokenResponse) : Prop :=
  (forall s, sr_token d = Some s -> s <> "" -> access_token tok = Some s)
  /\ (sr_token d = None \/ sr_token d = Some "" ->
      access_token tok = sr_access_token d)
  /\ (forall k, sr_token_type d = Some k -> k <> "" -> token_type tok = Some k)
  /\ (sr_token_type d = None \/ sr_token_type d = Some "" ->
      token_type tok = Some "Bearer")
  /\ (forall n, sr_expires_in d = Some n -> n <> 0 -> expires_in tok = Some n)
  /\ (sr_expires_in d = None \/ sr_expires_in d = Some 0 ->
      expires_in tok = Some 3600)
  /\ refresh_token tok = sr_refresh_token d
  /\ issued_at tok = Some stamp
  /\ scope tok = None /\ patient tok = None /\ id_token tok = None.

(** Where the constructor looks for the persisted record. *)
Definition token_path (w : World) : string :=
  SmartAuth.path_join (homedir w) ".fhir-mcp-tokens.json".

(** The API origin the constructor settles on, if any. *)
Definition base_of (URL_origin : string -> option string)
    (options : SmartAuth.Options) : option string :=
  if truthy (SmartAuth.o_baseUrl options) then SmartAuth.o_baseUrl options
  else URL_origin (SmartAuth.o_authorizeUrl options).

(** The manager the constructor builds before it looks at the disk. *)
Definition fresh (options : SmartAuth.Options) (base : string) (w : World)
    : SmartAuth.Obj :=
  {| SmartAuth.clientId := SmartAuth.o_clientId options;
     SmartAuth.clientSecret := js_or (SmartAuth.o_clientSecret options) None;
     SmartAuth.redirectUri := SmartAuth.o_redirectUri options;
     SmartAuth.scope := SmartAuth.o_scope options;
     SmartAuth.authorizeUrl := SmartAuth.o_authorizeUrl options;
     SmartAuth.tokenUrl := SmartAuth.o_tokenUrl options;
     SmartAuth.baseUrl := base;
     SmartAuth.tokenStorage := token_path w;
     SmartAuth.currentToken := Null |}.

(** What a token file leaves in [currentToken]. *)
Definition loaded (n : option FileNode) : Held :=
  match n with
  | Some (File (Stringified j)) => hold j
  | Some (File (Plain _)) | Some (File (Form _)) | Some Unreadable | None => Null
  end.

(** Where the token of a [FhirClient] call comes from. *)
Inductive Source :=
| FromManager (token : option string)   (* [smartAuth.getAccessToken()] resolved *)
| Manual (token : option string)        (* the token of [setAccessToken] *)
| NoToken.

(** "Try to get token from SmartAuth first, fall back to stored token":
    the source chosen, the client and the world after the attempt. *)
Definition pick (fc : FhirClient.Obj) (w : World) : Source * St FhirClient.Obj :=
  let fallback :=
    if truthy (FhirClient.accessToken fc)
    then Manual (FhirClient.accessToken fc) else NoToken in
  match FhirClient.smartAuth fc with
  | Some sa =>
      match SmartAuth.getAccessToken (mkSt sa w) with
      | (Ok token, s) =>
          (FromManager token, mkSt (FhirClient.with_smartAuth (this s) fc) (world s))
      | (Throw _, s) =>
          (fallback, mkSt (FhirClient.with_smartAuth (this s) fc) (world s))
      end
  | None => (fallback, mkSt fc w)
  end.

(** The headers [request] sends for a source. *)
Definition request_headers (options : FhirClient.RequestInit) (src : Source)
    : gmap string string :=
  let headers := default ∅ (FhirClient.ri_headers options) ∪ FhirClient.default_headers in
  match src with
  | FromManager token | Manual token =>
      <["Authorization" := FhirClient.bearer token]> headers
  | NoToken => headers
  end.

(** The local [token] of [executeQuery] for a source. *)
Definition query_token (src : Source) : option string :=
  match src with
  | FromManager token | Manual token => token
  | NoToken => None
  end.

Module Calls.
Import FhirClient.

(** The request of [request path options] for the resolved [url]. *)
Definition request (url : string) (options : RequestInit) (src : Source) : Request :=
  {| req_url := url; req_method := ri_method options;
     req_headers := request_headers options src; req_body := ri_body options |}.

(** The request of [executeQuery query] carrying [token]. *)
Definition query (fc : Obj) (query : string) (token : option string) : Request :=
  {| req_url := baseUrl fc +:+ "/api/secure/query"; req_method := Some "POST";
     req_headers := <["Authorization" := bearer token]>
                      {[ "Content-Type" := "application/json" ]};
     req_body := Some (JSON_stringify (JQuery query)) |}.

(** The probe of [isTokenValid token]. *)
Definition probe (token : string) : Request :=
  {| req_url := Fasten.API_BASE_URL +:+ "/secure/summary"; req_method := None;
     req_headers := Fasten.auth_headers token; req_body := None |}.

(** The request of [makeAuthenticatedRequest endpoint method payload]. *)
Definition authenticated (g : Fasten.Globals) (endpoint : string)
    (method : option string) (payload : option Json) : Request :=
  let method := default "GET" method in
  {| req_url := Fasten.API_BASE_URL +:+ endpoint; req_method := Some method;
     req_headers := Fasten.auth_headers (show (Fasten.authToken g));
     req_body := if bool_decide (is_Some payload)
                    && (String.eqb method "POST" || String.eqb method "PUT")
                 then JSON_stringify <$> payload else None |}.
End Calls.

(** What a [fetch] of the client turns into once the answer is in. *)
Definition settle (failed : Response -> Error) (o : Outcome) : Result Json :=
  match o with
  | NetworkError reason => Throw (TransportFailure reason)
  | Reply r =>
      if ok r
      then match body r with
           | Stringified j => Ok j
           | Plain _ | Form _ => Throw SyntaxError
           end
      else Throw (failed r)
  end.

(** What an acquisition returns and leaves in memory when the disk refuses
    the write is what it returns and leaves when the disk accepts it. *)
Definition disk_blind {A} (op : M SmartAuth.Obj A) : Prop :=
  forall self w,
    fst (op (mkSt self (with_writable false w)))
    = fst (op (mkSt self (with_writable true w)))
    /\ this (snd (op (mkSt self (with_writable false w))))
       = this (snd (op (mkSt self (with_writable true w))))
    /\ files (world (snd (op (mkSt self (with_writable false w))))) = files w.

(** The log grew by exactly one request, whose Authorization header is
    [auth]. *)
Definition sends_with (before after : list Request) (auth : string) : Prop :=
  exists req, after = before ++ [req]
              /\ req_headers req !! "Authorization" = Some auth.

(** The world [clearToken] leaves: the token file is removed if it is
    there and the disk lets it go. *)
Definition unlinked (path : string) (w : World) : World :=
  match files w !! path with
  | Some _ => if writable w then with_files (delete path (files w)) w else w
  | None => w
  end.

(** A failure of [op] leaves the manager object and the files as they were. *)
Definition fails_clean {A} (op : M SmartAuth.Obj A) : Prop :=
  forall self w e,
    fst (op (mkSt self w)) = Throw e ->
    this (snd (op (mkSt self w))) = self
    /\ files (world (snd (op (mkSt self w)))) = files w.

(** The same for every failure but a [TypeError]; a [TypeError] leaves the
    files as they were and a truthy primitive value in [currentToken]. *)
Definition fails_clean_but_TypeError {A} (op : M SmartAuth.Obj A) : Prop :=
  forall self w e,
    fst (op (mkSt self w)) = Throw e ->
    files (world (snd (op (mkSt self w)))) = files w
    /\ ((forall reason, e <> TypeError reason) ->
        this (snd (op (mkSt self w))) = self)
    /\ ((exists reason, e = TypeError reason) ->
        exists p, truthy p = true
                  /\ this (snd (op (mkSt self w)))
                     = SmartAuth.with_currentToken (Prim p) self).

(** [h] resolves in every state: no failure escapes it. *)
Definition never_rejects {T A} (h : M T A) : Prop :=
  forall s, exists a s', h s = (Ok a, s').

(** Running calls one after the other, stopping at the first that fails. *)
Fixpoint in_turn {T A} (calls : list (M T A)) : M T (list A) :=
  match calls with
  | [] => ret []
  | call :: rest => x <- call ;; xs <- in_turn rest ;; ret (x :: xs)
  end.

(** The five calls of [get_patient_summary], in the order of the source. *)
Definition summary_calls (URL_resolve : string -> string -> option string)
    (patientId : string) : list (M FhirClient.Obj Json) :=
  [ FhirClient.getPatient URL_resolve patientId;
    FhirClient.getPatientConditions URL_resolve patientId;
    FhirClient.getPatientMedications URL_resolve patientId;
    FhirClient.getPatientAllergies URL_resolve patientId;
    FhirClient.getPatientObservations URL_resolve patientId None ].

(** Whether the probe for [token] comes back with status 200 in [w]. *)
Definition probe_says (w : World) (token : string) : bool :=
  match answer w (Calls.probe token) with
  | Reply r => status r =? 200
  | NetworkError _ => false
  end.

(** The module state with the token cleared. *)
Definition cleared : Fasten.Globals := {| Fasten.authToken := None |}.

(* --------------------------------------------------------------------- *)
(** *** Sample data *)
(* --------------------------------------------------------------------- *)

Module Sample.

Definition manager (c : Held) : SmartAuth.Obj :=
  {| SmartAuth.clientId := "mcp-client"; SmartAuth.clientSecret := None;
     SmartAuth.redirectUri := "http://localhost:3000/callback";
     SmartAuth.scope := "patient/*.read";
     SmartAuth.authorizeUrl := "https://auth.example.org/authorize";
     SmartAuth.tokenUrl := "https://auth.example.org/token";
     SmartAuth.baseUrl := "https://auth.example.org";
     SmartAuth.tokenStorage := "/home/u/.fhir-mcp-tokens.json";
     SmartAuth.currentToken := c |}.

Definition options : SmartAuth.Options :=
  {| SmartAuth.o_clientId := "mcp-client"; SmartAuth.o_clientSecret := None;
     SmartAuth.o_redirectUri := "http://localhost:3000/callback";
     SmartAuth.o_scope := "patient/*.read";
     SmartAuth.o_authorizeUrl := "https://auth.example.org/authorize";
     SmartAuth.o_tokenUrl := "https://auth.example.org/token";
     SmartAuth.o_baseUrl := Some "https://auth.example.org" |}.

(** A credential issued at 1 000 000 ms, valid for one hour. *)
Definition credential (refresh : option string) : TokenResponse :=
  {| access_token := Some "A1"; token_type := Some "Bearer";
     expires_in := Some 3600; refresh_token := refresh;
     scope := None; patient := None; id_token := None;
     issued_at := Some 1000000 |}.

Definition renewed : TokenResponse :=
  {| access_token := Some "A2"; token_type := Some "Bearer";
     expires_in := Some 3600; refresh_token := Some "R2";
     scope := None; patient := None; id_token := None;
     issued_at := None |}.

(** A remote side that gives the same answer to everything, in 7 ms. *)
Definition always (code : Z) (text : Text) : list Request -> Request -> Exchange :=
  fun _ _ => {| took := 7;
                outcome := Reply {| status := code; statusText := "-"; body := text |} |}.

Definition world (t : Z) (srv : list Request -> Request -> Exchange) : World :=
  {| now := t; homedir := "/home/u"; files := ∅; writable := true;
     server := srv; sent := [] |}.

(** [new URL(path, base)] for a base ending in [/] and a relative path. *)
Definition resolve (path base : string) : option string := Some (base +:+ path).

End Sample.

(* ===================================================================== *)
(** ** Running the platform and the persistence helpers *)
(* ===================================================================== *)

Lemma fetch_run {T} url method headers payload (s : St T) :
  fetch url method headers payload s =
  let req := {| req_url := url; req_method := method;
                req_headers := headers; req_body := payload |} in
  match answer (world s) req with
  | Reply r => (Ok r, mkSt (this s) (after_fetch (world s) req))
  | NetworkError reason =>
      (Throw (TransportFailure reason), mkSt (this s) (after_fetch (world s) req))
  end.
Proof.
  unfold fetch, answer, after_fetch, bind, get_world, set_world, ret, throw; simpl.
  destruct (outcome _); reflexivity.
Qed.

Lemma sent_after_fetch w req : sent (after_fetch w req) = sent w ++ [req].
Proof. reflexivity. Qed.

Lemma files_after_fetch w req : files (after_fetch w req) = files w.
Proof. reflexivity. Qed.

Lemma with_currentToken_same self c :
  SmartAuth.currentToken self = c -> SmartAuth.with_currentToken c self = self.
Proof. destruct self. cbn. now intros ->. Qed.

Lemma saveToken_run self tok w :
  SmartAuth.currentToken self = Object tok ->
  SmartAuth.saveToken (mkSt self w) =
  (Ok tt, mkSt (SmartAuth.with_currentToken (Object (stamped (now w) tok)) self)
               (persisted (SmartAuth.tokenStorage self) (stamped (now w) tok) w)).
Proof.
  intros Hc.
  unfold SmartAuth.saveToken, bind, get_this; simpl. rewrite Hc.
  unfold stamped, persisted, fs_writeFileSync, try_catch, bind, get_world,
    SmartAuth.set_currentToken, bind, get_this, set_this, Date_now, bind,
    get_world, set_world, ret, throw; simpl.
  destruct (truthy (issued_at tok)); simpl.
  - rewrite Hc. rewrite (with_currentToken_same self _ Hc).
    destruct (writable w); reflexivity.
  - destruct (writable w); reflexivity.
Qed.

Lemma saveToken_none self w :
  truthy (SmartAuth.currentToken self) = false ->
  SmartAuth.saveToken (mkSt self w) = (Ok tt, mkSt self w).
Proof.
  intros Hc. unfold SmartAuth.saveToken, bind, get_this; simpl. now rewrite Hc.
Qed.

(** [saveToken] on a truthy primitive value and on an array. *)
Lemma saveToken_primitive self p w :
  SmartAuth.currentToken self = Prim p -> truthy p = true ->
  SmartAuth.saveToken (mkSt self w)
  = (Throw (TypeError "Cannot create property 'issued_at'"), mkSt self w).
Proof.
  intros Hc Hp. unfold SmartAuth.saveToken, bind, get_this; simpl. rewrite Hc.
  cbn. rewrite Hp. reflexivity.
Qed.

Lemma saveToken_array self items w :
  SmartAuth.currentToken self = Arr items None ->
  SmartAuth.saveToken (mkSt self w)
  = (Ok tt, mkSt (SmartAuth.with_currentToken (Arr items (Some (now w))) self)
                 (persisted_array (SmartAuth.tokenStorage self) items w)).
Proof.
  intros Hc. unfold SmartAuth.saveToken, bind, get_this; simpl. rewrite Hc.
  unfold persisted_array, fs_writeFileSync, try_catch, bind, get_world,
    SmartAuth.set_currentToken, bind, get_this, set_this, Date_now, bind,
    get_world, set_world, ret, throw; simpl.
  destruct (writable w); reflexivity.
Qed.

(* ===================================================================== *)
(** ** Refresh and code exchange *)
(* ===================================================================== *)

(** C4.  [refreshToken] called while no refresh token can be found, neither
    in the argument nor in a live credential, fails with 'No refresh token
    available' and leaves the whole state as it was: the credential, the
    disk, the clock and the list of requests sent, so nothing reached the
    token endpoint. *)
Theorem refresh_without_refresh_token (self : SmartAuth.Obj) (w : World)
    (arg : option string) :
  truthy arg = false ->
  (SmartAuth.currentToken self = Null \/
   exists tok, SmartAuth.currentToken self = Object tok /\
               truthy (refresh_token tok) = false) ->
  SmartAuth.refreshToken arg (mkSt self w) = (Throw NoRefreshToken, mkSt self w)
  /\ sent (world (snd (SmartAuth.refreshToken arg (mkSt self w)))) = sent w.
Proof.
  intros Harg Hcur.
  assert (Hrun : SmartAuth.refreshToken arg (mkSt self w)
                 = (Throw NoRefreshToken, mkSt self w)).
  { unfold SmartAuth.refreshToken, bind, get_this; simpl.
    unfold js_or. rewrite Harg.
    destruct Hcur as [Hnone | (tok & Hsome & Hrt)].
    - rewrite Hnone. reflexivity.
    - rewrite Hsome. simpl. rewrite Hrt. reflexivity. }
  split; [exact Hrun | now rewrite Hrun].
Qed.

Lemma refresh_without_refresh_token_witness :
  let self := Sample.manager (Object (Sample.credential None)) in
  let w := Sample.world 5 (Sample.always 200 (Plain "-")) in
  truthy (@None string) = false
  /\ truthy (refresh_token (Sample.credential None)) = false
  /\ SmartAuth.refreshToken None (mkSt self w) = (Throw NoRefreshToken, mkSt self w)
  /\ sent (world (snd (SmartAuth.refreshToken None (mkSt self w)))) = sent w.
Proof.
  intros self w.
  split; [reflexivity |]. split; [reflexivity |].
  apply (refresh_without_refresh_token self w None).
  - reflexivity.
  - right. exists (Sample.credential None). split; reflexivity.
Defined.

(** C5.  When the token endpoint answers the code exchange with a status
    outside 200..299, [exchangeCodeForToken] fails with 'Token exchange
    failed' carrying that status and status text; the manager object (with
    its live credential) and the files on disk are what they were. *)
Theorem exchange_rejected_keeps_state (self : SmartAuth.Obj) (w : World)
    (code : string) (r : Response) :
  answer w (Sends.exchange self code) = Reply r ->
  ok r = false ->
  SmartAuth.exchangeCodeForToken code (mkSt self w)
  = (Throw (TokenExchangeFailed (status r) (statusText r)),
     mkSt self (after_fetch w (Sends.exchange self code)))
  /\ files (after_fetch w (Sends.exchange self code)) = files w.
Proof.
  intros Hans Hok. split; [| reflexivity].
  unfold SmartAuth.exchangeCodeForToken.
  unfold bind at 1. unfold get_this at 1. cbv beta iota.
  unfold bind at 1. rewrite fetch_run. cbv zeta. simpl this. simpl world.
  fold (Sends.exchange self code). rewrite Hans, Hok. reflexivity.
Qed.

Lemma exchange_rejected_keeps_state_witness :
  let self := Sample.manager (Object (Sample.credential (Some "R1"))) in
  let w := Sample.world 5 (Sample.always 400 (Plain "invalid_grant")) in
  let r := {| status := 400; statusText := "-"; body := Plain "invalid_grant" |} in
  answer w (Sends.exchange self "abc") = Reply r
  /\ ok r = false
  /\ SmartAuth.exchangeCodeForToken "abc" (mkSt self w)
     = (Throw (TokenExchangeFailed 400 "-"),
        mkSt self (after_fetch w (Sends.exchange self "abc")))
  /\ files (after_fetch w (Sends.exchange self "abc")) = files w.
Proof.
  intros self w r.
  split; [reflexivity |]. split; [reflexivity |].
  apply (exchange_rejected_keeps_state self w "abc" r); reflexivity.
Defined.

(* ===================================================================== *)
(** ** Acquisition, step by step *)
(* ===================================================================== *)

Lemma install_run self tok w :
  (SmartAuth.set_currentToken (Object tok) ;;
   SmartAuth.saveToken ;;
   SmartAuth.return_current) (mkSt self w)
  = installed self tok w.
Proof.
  unfold bind at 1. unfold SmartAuth.set_currentToken at 1.
  unfold bind at 1, get_this at 1, set_this at 1. cbv beta iota. cbn [this world].
  unfold bind at 1.
  rewrite (saveToken_run _ tok) by reflexivity.
  reflexivity.
Qed.

Lemma accept_run self j w :
  (SmartAuth.set_currentToken (hold j) ;;
   SmartAuth.saveToken ;;
   SmartAuth.return_current) (mkSt self w)
  = accepted self j w.
Proof.
  destruct j as [o | | p | items]; cbn [hold accepted].
  - apply install_run.
  - unfold bind at 1. unfold SmartAuth.set_currentToken at 1.
    unfold bind at 1, get_this at 1, set_this at 1. cbv beta iota. cbn [this world].
    unfold bind at 1. rewrite saveToken_none by reflexivity. reflexivity.
  - unfold bind at 1. unfold SmartAuth.set_currentToken at 1.
    unfold bind at 1, get_this at 1, set_this at 1. cbv beta iota. cbn [this world].
    unfold bind at 1. destruct (truthy p) eqn:Hp.
    + rewrite (saveToken_primitive _ p) by (reflexivity || exact Hp). reflexivity.
    + rewrite saveToken_none by exact Hp. reflexivity.
  - unfold bind at 1. unfold SmartAuth.set_currentToken at 1.
    unfold bind at 1, get_this at 1, set_this at 1. cbv beta iota. cbn [this world].
    unfold bind at 1. rewrite (saveToken_array _ items) by reflexivity. reflexivity.
Qed.

(** [refreshToken] once a refresh token has been found. *)
Lemma refreshToken_run self w arg :
  truthy (tokenToUse self arg) = true ->
  SmartAuth.refreshToken arg (mkSt self w) =
  let req := Sends.refresh self (tokenToUse self arg) in
  let w' := after_fetch w req in
  match answer w req with
  | NetworkError reason => (Throw (TransportFailure reason), mkSt self w')
  | Reply r =>
      if ok r
      then match body r with
           | Stringified j => accepted self j w'
           | Plain _ | Form _ => (Throw SyntaxError, mkSt self w')
           end
      else (Throw (TokenRefreshFailed (status r) (statusText r)), mkSt self w')
  end.
Proof.
  intros Htok. cbv zeta.
  unfold SmartAuth.refreshToken.
  unfold bind at 1. unfold get_this at 1. cbv beta iota. cbn [this world].
  fold (tokenToUse self arg). rewrite Htok. cbv [negb].
  unfold bind at 1. rewrite fetch_run. cbv zeta. cbn [this world].
  fold (Sends.refresh self (tokenToUse self arg)).
  destruct (answer w _) as [r | reason]; [| reflexivity].
  destruct (ok r); cbv [negb]; [| reflexivity].
  unfold bind at 1. unfold response_json, JSON_parse.
  destruct (body r) as [s | ps | j]; try reflexivity.
  unfold ret at 1. apply accept_run.
Qed.

Lemma exchange_run self w code :
  SmartAuth.exchangeCodeForToken code (mkSt self w) =
  let req := Sends.exchange self code in
  let w' := after_fetch w req in
  match answer w req with
  | NetworkError reason => (Throw (TransportFailure reason), mkSt self w')
  | Reply r =>
      if ok r
      then match body r with
           | Stringified j => accepted self j w'
           | Plain _ | Form _ => (Throw SyntaxError, mkSt self w')
           end
      else (Throw (TokenExchangeFailed (status r) (statusText r)), mkSt self w')
  end.
Proof.
  cbv zeta. unfold SmartAuth.exchangeCodeForToken.
  unfold bind at 1. unfold get_this at 1. cbv beta iota. cbn [this world].
  unfold bind at 1. rewrite fetch_run. cbv zeta. cbn [this world].
  fold (Sends.exchange self code).
  destruct (answer w _) as [r | reason]; [| reflexivity].
  destruct (ok r); cbv [negb]; [| reflexivity].
  unfold bind at 1. unfold response_json, JSON_parse.
  destruct (body r) as [s | ps | j]; try reflexivity.
  unfold ret at 1. apply accept_run.
Qed.

Lemma signIn_run self w username password :
  SmartAuth.signIn username password (mkSt self w) =
  let req := Sends.sign_in self username password in
  let w' := after_fetch w req in
  match answer w req with
  | NetworkError reason => (Throw (TransportFailure reason), mkSt self w')
  | Reply r =>
      if ok r
      then match body r with
           | Stringified j =>
               match reply_properties j with
               | Some d =>
                   installed self
                     (mkTokenResponse
                        (js_or (sr_token d) (sr_access_token d))
                        (js_or (sr_token_type d) (Some "Bearer"))
                        (js_or (sr_expires_in d) (Some 3600))
                        (sr_refresh_token d) None None None (Some (now w')))
                     w'
               | None =>
                   (Throw (TypeError "Cannot read properties of null"), mkSt self w')
               end
           | Plain _ | Form _ => (Throw SyntaxError, mkSt self w')
           end
      else (Throw (AuthenticationFailed (status r) (statusText r) (body r)),
            mkSt self w')
  end.
Proof.
  cbv zeta. unfold SmartAuth.signIn.
  unfold bind at 1. unfold get_this at 1. cbv beta iota. cbn [this world].
  unfold bind at 1. rewrite fetch_run. cbv zeta. cbn [this world].
  fold (Sends.sign_in self username password).
  destruct (answer w _) as [r | reason]; [| reflexivity].
  destruct (ok r); cbv [negb]; [| reflexivity].
  unfold bind at 1. unfold response_json, JSON_parse.
  destruct (body r) as [s | ps | j]; try reflexivity.
  unfold ret at 1. unfold bind at 1.
  destruct (reply_properties j) as [d |]; [| reflexivity].
  unfold ret at 1. unfold bind at 1. unfold Date_now, bind, get_world, ret at 1.
  cbn [this world]. apply install_run.
Qed.

(* ===================================================================== *)
(** ** Reading the token *)
(* ===================================================================== *)

Lemma getAccessToken_none self w :
  truthy (SmartAuth.currentToken self) = false ->
  SmartAuth.getAccessToken (mkSt self w) = (Throw NoCredential, mkSt self w).
Proof.
  intros Hc. unfold SmartAuth.getAccessToken, bind, get_this; simpl.
  now rewrite Hc.
Qed.

(** The three ways a read goes when [currentToken] holds a truthy value. *)
Lemma getAccessToken_run self w :
  truthy (SmartAuth.currentToken self) = true ->
  let tok := view (SmartAuth.currentToken self) in
  SmartAuth.getAccessToken (mkSt self w) =
  if near_expiry tok (now w)
  then
    if truthy (refresh_token tok)
    then match SmartAuth.refreshToken (refresh_token tok) (mkSt self w) with
         | (Ok _, s') => read_back s'
         | (Throw e, s') => (Throw e, s')
         end
    else (Throw TokenExpiredNoRefresh, mkSt self w)
  else (Ok (access_token tok), mkSt self w).
Proof.
  intros Hc tok. unfold SmartAuth.getAccessToken.
  unfold bind at 1. unfold get_this at 1. cbv beta iota. cbn [this world].
  rewrite Hc. cbv [negb]. fold tok.
  assert (Hback : forall s : St SmartAuth.Obj,
            (self' <- get_this ;;
             match SmartAuth.currentToken self' with
             | Null => throw (TypeError "Cannot read properties of null")
             | v => ret (access_token (view v))
             end) s = read_back s).
  { intros s. unfold bind, get_this, read_back, ret, throw.
    destruct (SmartAuth.currentToken (this s)); reflexivity. }
  assert (Hfresh : read_back (mkSt self w) = (Ok (access_token tok), mkSt self w)).
  { unfold read_back, tok. cbn [this].
    destruct (SmartAuth.currentToken self); try reflexivity. discriminate Hc. }
  unfold near_expiry, expiresAt, js_or.
  destruct (truthy (expires_in tok)).
  - unfold bind at 1. unfold bind at 1.
    assert (Hissued :
      (if truthy (issued_at tok)
       then ret (issued_at tok)
       else (t <- Date_now ;; ret (Some t))) (mkSt self w)
      = (Ok (if truthy (issued_at tok) then issued_at tok else Some (now w)),
         mkSt self w)).
    { destruct (truthy (issued_at tok)); reflexivity. }
    rewrite Hissued. unfold ret at 1.
    set (horizon := SmartAuth.num (if truthy (issued_at tok) then issued_at tok
                                   else Some (now w))
                    + SmartAuth.num (expires_in tok) * 1000).
    unfold bind at 1.
    destruct (truthy (Some horizon)); cbn [andb].
    + unfold bind at 1. unfold Date_now at 1, bind at 1, get_world at 1, ret at 1.
      cbn [this world]. unfold ret at 1.
      cbn [SmartAuth.num default from_option id].
      destruct (now w >? horizon - 5 * 60 * 1000).
      * destruct (truthy (refresh_token tok)); [| reflexivity].
        unfold bind at 1. unfold bind at 1.
        destruct (SmartAuth.refreshToken _ _) as [[v | e] s']; [| reflexivity].
        unfold ret at 1. apply Hback.
      * unfold bind at 1, ret at 1. rewrite Hback. exact Hfresh.
    + unfold ret at 1. unfold bind at 1, ret at 1. rewrite Hback. exact Hfresh.
  - unfold bind at 1, ret at 1. change (truthy (@None Z)) with false. cbn [andb].
    unfold bind at 1, ret at 1. unfold bind at 1, ret at 1.
    rewrite Hback. exact Hfresh.
Qed.

Lemma getAccessToken_live self tok w :
  SmartAuth.currentToken self = Object tok ->
  SmartAuth.getAccessToken (mkSt self w) =
  if near_expiry tok (now w)
  then
    if truthy (refresh_token tok)
    then match SmartAuth.refreshToken (refresh_token tok) (mkSt self w) with
         | (Ok _, s') => read_back s'
         | (Throw e, s') => (Throw e, s')
         end
    else (Throw TokenExpiredNoRefresh, mkSt self w)
  else (Ok (access_token tok), mkSt self w).
Proof.
  intros Hc. rewrite getAccessToken_run by (now rewrite Hc).
  cbv zeta. now rewrite Hc.
Qed.

Lemma sent_persisted path tok w : sent (persisted path tok w) = sent w.
Proof. unfold persisted. now destruct (writable w). Qed.

Lemma now_persisted path tok w : now (persisted path tok w) = now w.
Proof. unfold persisted. now destruct (writable w). Qed.

Lemma access_token_stamped t tok : access_token (stamped t tok) = access_token tok.
Proof. unfold stamped. now destruct (truthy (issued_at tok)). Qed.

Lemma tokenToUse_arg self arg : truthy arg = true -> tokenToUse self arg = arg.
Proof. intros H. unfold tokenToUse, js_or. now rewrite H. Qed.

Lemma truthy_Some_Z (n : Z) : n <> 0 -> truthy (Some n) = true.
Proof.
  intros H. unfold truthy, truthy_option, truthy, truthy_Z.
  destruct (Z.eqb_spec n 0); [contradiction | reflexivity].
Qed.

(** With expiry data present, the test compares the clock with the horizon
    minus five minutes. *)
Lemma near_expiry_horizon tok e i t :
  expires_in tok = Some e -> issued_at tok = Some i ->
  e <> 0 -> i <> 0 -> i + e * 1000 <> 0 ->
  near_expiry tok t = (t >? i + e * 1000 - margin).
Proof.
  intros He Hi He0 Hi0 Hh.
  unfold near_expiry, expiresAt. rewrite He, Hi.
  rewrite (truthy_Some_Z e He0). unfold js_or. rewrite (truthy_Some_Z i Hi0).
  cbn [SmartAuth.num default from_option id]. rewrite (truthy_Some_Z _ Hh).
  reflexivity.
Qed.

Lemma sent_persisted_array path items w : sent (persisted_array path items w) = sent w.
Proof. unfold persisted_array. now destruct (writable w). Qed.

Lemma sent_accepted self j w : sent (world (snd (accepted self j w))) = sent w.
Proof.
  destruct j as [o | | p | items]; cbn [accepted]; try reflexivity.
  - unfold installed. cbn [snd world]. apply sent_persisted.
  - cbn [snd world]. apply sent_persisted_array.
Qed.

(** A read that went through a refresh answered with the document [j]. *)
Lemma read_back_accepted self j w :
  fst (match accepted self j w with
       | (Ok _, s') => read_back s'
       | (Throw e, s') => (Throw e, s')
       end) = read_after_refresh j.
Proof.
  destruct j as [o | | p | items]; cbn [accepted read_after_refresh].
  - unfold installed, read_back.
    cbn [this fst SmartAuth.currentToken SmartAuth.with_currentToken view].
    now rewrite access_token_stamped.
  - reflexivity.
  - destruct (truthy p); reflexivity.
  - reflexivity.
Qed.

(** C2, as the code has it.  Take a live credential whose [expires_in] and
    [issued_at] are set (non-zero, with a non-zero horizon
    [issued_at + expires_in * 1000], and of a magnitude the doubles of the
    code represent exactly).
    - A read one millisecond before horizon minus five minutes returns the
      stored access token and changes nothing: no request is sent.
    - A read one millisecond after it, when the credential holds a refresh
      token, sends exactly one request, the refresh grant to the token
      endpoint; on a 2xx answer holding a JSON object the read returns the
      access token of that object (a JSON document of another kind gives
      [read_after_refresh]: [null] and a truthy primitive value make the
      read fail with a [TypeError]); on a non-2xx answer it fails with
      'Token refresh failed'.
    - The same read without a refresh token fails with 'Token is expired
      and no refresh token is available' and sends nothing. *)
Theorem read_around_refresh_threshold (self : SmartAuth.Obj) (tok : TokenResponse)
    (w : World) (e i : Z) :
  SmartAuth.currentToken self = Object tok ->
  expires_in tok = Some e -> issued_at tok = Some i ->
  e <> 0 -> i <> 0 -> i + e * 1000 <> 0 ->
  exact e i ->
  (now w = i + e * 1000 - margin - 1 ->
     SmartAuth.getAccessToken (mkSt self w) = (Ok (access_token tok), mkSt self w))
  /\ (now w = i + e * 1000 - margin + 1 ->
      truthy (refresh_token tok) = true ->
      let req := Sends.refresh self (refresh_token tok) in
      sent (world (snd (SmartAuth.getAccessToken (mkSt self w)))) = sent w ++ [req]
      /\ (forall r (o : JsonObject), answer w req = Reply r -> ok r = true ->
                      body r = Stringified o ->
            fst (SmartAuth.getAccessToken (mkSt self w))
            = Ok (access_token (asTokenResponse o)))
      /\ (forall r j, answer w req = Reply r -> ok r = true ->
                      body r = Stringified j ->
            fst (SmartAuth.getAccessToken (mkSt self w)) = read_after_refresh j)
      /\ (forall r, answer w req = Reply r -> ok r = false ->
            fst (SmartAuth.getAccessToken (mkSt self w))
            = Throw (TokenRefreshFailed (status r) (statusText r))))
  /\ (now w = i + e * 1000 - margin + 1 ->
      truthy (refresh_token tok) = false ->
      SmartAuth.getAccessToken (mkSt self w) = (Throw TokenExpiredNoRefresh, mkSt self w)).
Proof.
  intros Hc He Hi He0 Hi0 Hh _.
  pose proof (near_expiry_horizon tok e i (now w) He Hi He0 Hi0 Hh) as Hnear.
  rewrite (getAccessToken_live self tok w Hc), Hnear.
  split; [| split].
  - intros Hnow.
    replace (now w >? i + e * 1000 - margin) with false; [reflexivity |].
    symmetry. rewrite Z.gtb_ltb. apply Z.ltb_ge. lia.
  - intros Hnow Hrt req.
    replace (now w >? i + e * 1000 - margin) with true
      by (symmetry; rewrite Z.gtb_ltb; apply Z.ltb_lt; lia).
    rewrite Hrt.
    rewrite refreshToken_run by (rewrite tokenToUse_arg; assumption).
    rewrite (tokenToUse_arg self _ Hrt). cbv zeta. fold req.
    assert (Hany : forall r j, answer w req = Reply r -> ok r = true ->
              body r = Stringified j ->
              fst (match
                     match answer w req with
                     | Reply r0 =>
                         if ok r0
                         then match body r0 with
                              | Stringified j0 => accepted self j0 (after_fetch w req)
                              | _ => (Throw SyntaxError, mkSt self (after_fetch w req))
                              end
                         else (Throw (TokenRefreshFailed (status r0) (statusText r0)),
                               mkSt self (after_fetch w req))
                     | NetworkError reason =>
                         (Throw (TransportFailure reason), mkSt self (after_fetch w req))
                     end
                   with
                   | (Ok _, s') => read_back s'
                   | (Throw e0, s') => (Throw e0, s')
                   end) = read_after_refresh j).
    { intros r j Hans Hok Hbody. rewrite Hans, Hok, Hbody.
      apply read_back_accepted. }
    split; [| split; [| split]].
    + destruct (answer w req) as [r | reason]; [| reflexivity].
      destruct (ok r); [| reflexivity].
      destruct (body r) as [s | ps | j]; try reflexivity.
      pose proof (sent_accepted self j (after_fetch w req)) as Hs.
      destruct (accepted self j (after_fetch w req)) as [[v | err] s'];
        cbn [snd] in Hs |- *; unfold read_back;
        try destruct (SmartAuth.currentToken (this s')); exact Hs.
    + intros r o Hans Hok Hbody. exact (Hany r (JObject o) Hans Hok Hbody).
    + exact Hany.
    + intros r Hans Hok. now rewrite Hans, Hok.
  - intros Hnow Hrt.
    replace (now w >? i + e * 1000 - margin) with true
      by (symmetry; rewrite Z.gtb_ltb; apply Z.ltb_lt; lia).
    now rewrite Hrt.
Qed.

Lemma read_around_refresh_threshold_witness :
  let tok := Sample.credential (Some "R1") in
  let self := Sample.manager (Object tok) in
  let srv := Sample.always 200 (Stringified (JToken Sample.renewed)) in
  let before := Sample.world (1000000 + 3600 * 1000 - margin - 1) srv in
  let after := Sample.world (1000000 + 3600 * 1000 - margin + 1) srv in
  exact 3600 1000000
  /\ SmartAuth.getAccessToken (mkSt self before) = (Ok (Some "A1"), mkSt self before)
  /\ sent (world (snd (SmartAuth.getAccessToken (mkSt self after))))
     = [Sends.refresh self (Some "R1")]
  /\ fst (SmartAuth.getAccessToken (mkSt self after)) = Ok (Some "A2").
Proof.
  intros tok self srv before after.
  assert (Hexact : exact 3600 1000000) by (vm_compute; split; discriminate).
  assert (Hb := read_around_refresh_threshold self tok before 3600 1000000
                  eq_refl eq_refl eq_refl).
  assert (Ha := read_around_refresh_threshold self tok after 3600 1000000
                  eq_refl eq_refl eq_refl).
  destruct Hb as [Hb _]; [lia | lia | lia | exact Hexact |].
  destruct Ha as [_ [Ha _]]; [lia | lia | lia | exact Hexact |].
  split; [exact Hexact |].
  split; [apply Hb; reflexivity |].
  destruct (Ha eq_refl eq_refl) as [Hsent [Hok _]].
  split; [exact Hsent |].
  apply (Hok {| status := 200; statusText := "-";
                body := Stringified (JToken Sample.renewed) |} (JToken Sample.renewed));
    reflexivity.
Defined.

(** C2 as stated fails without a refresh token: for the one-hour credential
    issued at 1 000 000 ms and holding no refresh token, the read one
    millisecond past the threshold sends nothing and does not return. *)
Lemma read_past_threshold_without_refresh_token :
  let tok := Sample.credential None in
  let self := Sample.manager (Object tok) in
  let w := Sample.world (1000000 + 3600 * 1000 - 5 * 60 * 1000 + 1)
             (Sample.always 200 (Stringified (JToken Sample.renewed))) in
  expires_in tok = Some 3600 /\ issued_at tok = Some 1000000
  /\ SmartAuth.getAccessToken (mkSt self w) = (Throw TokenExpiredNoRefresh, mkSt self w)
  /\ sent (world (snd (SmartAuth.getAccessToken (mkSt self w)))) = []
  /\ ~ (exists v s', SmartAuth.getAccessToken (mkSt self w) = (Ok v, s')
                     /\ length (sent (world s')) = 1%nat).
Proof.
  intros tok self w.
  assert (Hrun : SmartAuth.getAccessToken (mkSt self w)
                 = (Throw TokenExpiredNoRefresh, mkSt self w))
    by (vm_compute; reflexivity).
  split; [reflexivity |]. split; [reflexivity |]. split; [exact Hrun |].
  rewrite Hrun. split; [reflexivity |].
  intros (v & s' & Heq & _). discriminate.
Qed.

(* ===================================================================== *)
(** ** Sign-in *)
(* ===================================================================== *)

Lemma truthy_Some_string (s : string) : s <> "" -> truthy (Some s) = true.
Proof. intros H. destruct s; [contradiction | reflexivity]. Qed.

Lemma canonical_signIn_literal d stamp :
  canonical_for d stamp
    (stamped stamp
       (mkTokenResponse
          (js_or (sr_token d) (sr_access_token d))
          (js_or (sr_token_type d) (Some "Bearer"))
          (js_or (sr_expires_in d) (Some 3600))
          (sr_refresh_token d) None None None (Some stamp))).
Proof.
  assert (Hfields :
    forall tok,
      tok = stamped stamp
              (mkTokenResponse
                 (js_or (sr_token d) (sr_access_token d))
                 (js_or (sr_token_type d) (Some "Bearer"))
                 (js_or (sr_expires_in d) (Some 3600))
                 (sr_refresh_token d) None None None (Some stamp)) ->
      access_token tok = js_or (sr_token d) (sr_access_token d)
      /\ token_type tok = js_or (sr_token_type d) (Some "Bearer")
      /\ expires_in tok = js_or (sr_expires_in d) (Some 3600)
      /\ refresh_token tok = sr_refresh_token d
      /\ issued_at tok = Some stamp
      /\ scope tok = None /\ patient tok = None /\ id_token tok = None).
  { intros tok ->. unfold stamped.
    destruct (truthy (issued_at _)); repeat split; reflexivity. }
  destruct (Hfields _ eq_refl) as (Ha & Hk & He & Hr & Hi & Hs & Hp & Hid).
  unfold canonical_for. rewrite Ha, Hk, He, Hr, Hi, Hs, Hp, Hid. unfold js_or.
  split; [| split; [| split; [| split; [| split; [| split]]]]].
  - intros s -> Hne. now rewrite truthy_Some_string.
  - intros [-> | ->]; reflexivity.
  - intros k -> Hne. now rewrite truthy_Some_string.
  - intros [-> | ->]; reflexivity.
  - intros n -> Hn. now rewrite truthy_Some_Z.
  - intros [-> | ->]; reflexivity.
  - repeat split; reflexivity.
Qed.

(** C6.  When the sign-in endpoint answers, [signIn] either fails with
    'Authentication failed' carrying the status, the status text and the
    body of a non-2xx answer (the manager is left as it was), or, on a 2xx
    answer holding a JSON document other than [null], returns and stores
    the canonical credential built from the properties of the document:
    access token from [token] or else [access_token], kind defaulting to
    Bearer, expiry defaulting to 3600 seconds, refresh token preserved,
    issuance stamped with the clock value at that moment; an empty [token],
    an empty kind and a zero expiry count as absent.  On a 2xx answer
    holding [null] it fails with the [TypeError] of the property read and
    the manager is left as it was. *)
Theorem signIn_normalizes (self : SmartAuth.Obj) (w : World)
    (username password : string) (r : Response) :
  answer w (Sends.sign_in self username password) = Reply r ->
  let w' := after_fetch w (Sends.sign_in self username password) in
  (ok r = false ->
     SmartAuth.signIn username password (mkSt self w)
     = (Throw (AuthenticationFailed (status r) (statusText r) (body r)), mkSt self w'))
  /\ (forall j d, ok r = true -> body r = Stringified j ->
       reply_properties j = Some d ->
       exists tok s',
         SmartAuth.signIn username password (mkSt self w) = (Ok (Object tok), s')
         /\ SmartAuth.currentToken (this s') = Object tok
         /\ canonical_for d (now w') tok)
  /\ (ok r = true -> body r = Stringified JNull ->
       SmartAuth.signIn username password (mkSt self w)
       = (Throw (TypeError "Cannot read properties of null"), mkSt self w')).
Proof.
  intros Hans w'. rewrite signIn_run. cbv zeta. rewrite Hans. fold w'.
  split; [| split].
  - intros Hok. now rewrite Hok.
  - intros j d Hok Hbody Hd. rewrite Hok, Hbody, Hd. unfold installed.
    eexists. eexists. split; [reflexivity |]. split; [reflexivity |].
    apply canonical_signIn_literal.
  - intros Hok Hbody. now rewrite Hok, Hbody.
Qed.

Lemma signIn_normalizes_witness :
  let self := Sample.manager Null in
  let d := {| sr_token := Some "T1"; sr_access_token := None; sr_token_type := None;
              sr_expires_in := Some 0; sr_refresh_token := Some "R1" |} in
  let r := {| status := 200; statusText := "-"; body := Stringified (JSignIn d) |} in
  let w := Sample.world 5 (Sample.always 200 (Stringified (JSignIn d))) in
  answer w (Sends.sign_in self "a" "b") = Reply r
  /\ ok r = true
  /\ reply_properties (JSignIn d) = Some d
  /\ exists tok s',
       SmartAuth.signIn "a" "b" (mkSt self w) = (Ok (Object tok), s')
       /\ SmartAuth.currentToken (this s') = Object tok
       /\ canonical_for d 12 tok.
Proof.
  intros self d r w.
  split; [reflexivity |]. split; [reflexivity |]. split; [reflexivity |].
  exact (proj1 (proj2 (signIn_normalizes self w "a" "b" r eq_refl))
           (JSignIn d) d eq_refl eq_refl eq_refl).
Defined.

(* ===================================================================== *)
(** ** Persistence *)
(* ===================================================================== *)

Lemma refreshToken_nothing self w arg :
  truthy (tokenToUse self arg) = false ->
  SmartAuth.refreshToken arg (mkSt self w) = (Throw NoRefreshToken, mkSt self w).
Proof.
  intros Htok. unfold SmartAuth.refreshToken.
  unfold bind at 1. unfold get_this at 1. cbv beta iota. cbn [this world].
  fold (tokenToUse self arg). now rewrite Htok.
Qed.

Lemma accepted_disk_blind self j w req :
  fst (accepted self j (after_fetch (with_writable false w) req))
  = fst (accepted self j (after_fetch (with_writable true w) req))
  /\ this (snd (accepted self j (after_fetch (with_writable false w) req)))
     = this (snd (accepted self j (after_fetch (with_writable true w) req)))
  /\ files (world (snd (accepted self j (after_fetch (with_writable false w) req))))
     = files w.
Proof. destruct j as [o | | p | items]; repeat split. Qed.

Lemma exchange_disk_blind code : disk_blind (SmartAuth.exchangeCodeForToken code).
Proof.
  intros self w. rewrite !exchange_run. cbv zeta.
  change (answer (with_writable false w) (Sends.exchange self code))
    with (answer w (Sends.exchange self code)).
  change (answer (with_writable true w) (Sends.exchange self code))
    with (answer w (Sends.exchange self code)).
  destruct (answer w _) as [r | reason]; [| repeat split].
  destruct (ok r); [| repeat split].
  destruct (body r) as [s | ps | j];
    [repeat split | repeat split | apply accepted_disk_blind].
Qed.

Lemma refresh_disk_blind arg : disk_blind (SmartAuth.refreshToken arg).
Proof.
  intros self w.
  destruct (truthy (tokenToUse self arg)) eqn:Htok.
  - rewrite !refreshToken_run by exact Htok. cbv zeta.
    change (answer (with_writable false w) (Sends.refresh self (tokenToUse self arg)))
      with (answer w (Sends.refresh self (tokenToUse self arg))).
    change (answer (with_writable true w) (Sends.refresh self (tokenToUse self arg)))
      with (answer w (Sends.refresh self (tokenToUse self arg))).
    destruct (answer w _) as [r | reason]; [| repeat split].
    destruct (ok r); [| repeat split].
    destruct (body r) as [s | ps | j];
      [repeat split | repeat split | apply accepted_disk_blind].
  - rewrite !refreshToken_nothing by exact Htok. repeat split.
Qed.

Lemma signIn_disk_blind username password :
  disk_blind (SmartAuth.signIn username password).
Proof.
  intros self w. rewrite !signIn_run. cbv zeta.
  change (answer (with_writable false w) (Sends.sign_in self username password))
    with (answer w (Sends.sign_in self username password)).
  change (answer (with_writable true w) (Sends.sign_in self username password))
    with (answer w (Sends.sign_in self username password)).
  destruct (answer w _) as [r | reason]; [| repeat split].
  destruct (ok r); [| repeat split].
  destruct (body r) as [s | ps | j]; [repeat split | repeat split |].
  destruct (reply_properties j); repeat split.
Qed.

Lemma loadToken_run self w :
  SmartAuth.loadToken (mkSt self w) =
  match files w !! SmartAuth.tokenStorage self with
  | None => (Ok tt, mkSt self w)
  | Some n => (Ok tt, mkSt (SmartAuth.with_currentToken (loaded (Some n)) self) w)
  end.
Proof.
  unfold SmartAuth.loadToken, try_catch.
  unfold bind at 1. unfold get_this at 1. cbv beta iota. cbn [this world].
  unfold bind at 1. unfold fs_existsSync at 1.
  unfold bind at 1, get_world at 1, ret at 1. cbv beta iota. cbn [this world].
  unfold fs_readFileSync, bind, get_world, JSON_parse, SmartAuth.set_currentToken,
    get_this, set_this, ret, throw. cbn [this world].
  destruct (files w !! SmartAuth.tokenStorage self) as [[[s | ps | j] |] |] eqn:Hf;
    cbn; rewrite ?Hf; reflexivity.
Qed.

Lemma constructor_run URL_origin options w b :
  base_of URL_origin options = Some b ->
  SmartAuth.constructor URL_origin options w
  = (Ok (SmartAuth.with_currentToken (loaded (files w !! token_path w))
           (fresh options b w)), w).
Proof.
  intros Hb. unfold SmartAuth.constructor.
  fold (base_of URL_origin options). rewrite Hb.
  fold (token_path w). fold (fresh options b w).
  rewrite loadToken_run. cbn [SmartAuth.tokenStorage fresh].
  destruct (files w !! token_path w); reflexivity.
Qed.

Lemma constructor_fails URL_origin options w :
  base_of URL_origin options = None ->
  SmartAuth.constructor URL_origin options w = (Throw (TypeError "Invalid URL"), w).
Proof.
  intros Hb. unfold SmartAuth.constructor.
  fold (base_of URL_origin options). now rewrite Hb.
Qed.

(** C8.  Persistence is best effort in both directions.
    - For each acquisition ([exchangeCodeForToken], [refreshToken],
      [signIn]): with a disk that refuses the write, the call returns what
      it returns with a disk that accepts it and leaves the same manager
      object (the same live credential) in memory; the files are untouched.
    - For the constructor: if the token file exists but cannot be read or
      does not hold JSON, and the options determine an API origin, the
      manager is built, without a live credential. *)
Theorem persistence_best_effort :
  (forall code, disk_blind (SmartAuth.exchangeCodeForToken code))
  /\ (forall arg, disk_blind (SmartAuth.refreshToken arg))
  /\ (forall username password, disk_blind (SmartAuth.signIn username password))
  /\ (forall URL_origin options w n b,
        base_of URL_origin options = Some b ->
        files w !! token_path w = Some n -> unusable n ->
        exists self, SmartAuth.constructor URL_origin options w = (Ok self, w)
                     /\ SmartAuth.currentToken self = Null).
Proof.
  split; [exact exchange_disk_blind |].
  split; [exact refresh_disk_blind |].
  split; [exact signIn_disk_blind |].
  intros URL_origin options w n b Hb Hfile Hbad.
  rewrite (constructor_run URL_origin options w b Hb), Hfile.
  eexists. split; [reflexivity |].
  destruct n as [[s | ps | j] |]; cbn in Hbad; try contradiction; reflexivity.
Qed.

Lemma persistence_best_effort_witness :
  let corrupt := with_files {[ "/home/u/.fhir-mcp-tokens.json" := File (Plain "{ oops") ]}
                   (Sample.world 5 (Sample.always 200 (Plain "-"))) in
  base_of (fun _ => None) Sample.options = Some "https://auth.example.org"
  /\ files corrupt !! token_path corrupt = Some (File (Plain "{ oops"))
  /\ unusable (File (Plain "{ oops"))
  /\ exists self, SmartAuth.constructor (fun _ => None) Sample.options corrupt
                  = (Ok self, corrupt)
                  /\ SmartAuth.currentToken self = Null.
Proof.
  intros corrupt.
  split; [reflexivity |]. split; [vm_compute; reflexivity |]. split; [exact I |].
  apply (proj2 (proj2 (proj2 persistence_best_effort))
           (fun _ => None) Sample.options corrupt (File (Plain "{ oops"))
           "https://auth.example.org").
  - reflexivity.
  - vm_compute; reflexivity.
  - exact I.
Defined.

(** C9.  Let a manager built from [options] hold the credential [c] and
    persist it on a disk that accepts the write.  A manager built from the
    same options afterwards (a restart, same home directory) is the very
    object the first process is left with, so a token read gives the same
    result and leaves the same state in both, at any clock value and
    against any remote side. *)
Theorem reload_reads_like_original (URL_origin : string -> option string)
    (options : SmartAuth.Options) (w0 w : World) (self0 : SmartAuth.Obj)
    (c : TokenResponse) :
  SmartAuth.constructor URL_origin options w0 = (Ok self0, w0) ->
  homedir w = homedir w0 ->
  writable w = true ->
  let s1 := snd (SmartAuth.saveToken
                   (mkSt (SmartAuth.with_currentToken (Object c) self0) w)) in
  exists reloaded,
    SmartAuth.constructor URL_origin options (world s1) = (Ok reloaded, world s1)
    /\ reloaded = this s1
    /\ SmartAuth.currentToken reloaded = Object (stamped (now w) c)
    /\ forall w2, SmartAuth.getAccessToken (mkSt reloaded w2)
                  = SmartAuth.getAccessToken (mkSt (this s1) w2).
Proof.
  intros Hnew Hhome Hwr s1.
  destruct (base_of URL_origin options) as [b |] eqn:Hb;
    [| rewrite (constructor_fails _ _ _ Hb) in Hnew; discriminate].
  rewrite (constructor_run _ _ _ b Hb) in Hnew.
  injection Hnew as Hself0.
  assert (Hs1 : s1 = mkSt (SmartAuth.with_currentToken (Object (stamped (now w) c)) self0)
                       (persisted (SmartAuth.tokenStorage self0) (stamped (now w) c) w)).
  { unfold s1. now rewrite (saveToken_run _ c) by reflexivity. }
  assert (Hpath : SmartAuth.tokenStorage self0 = token_path w).
  { rewrite <- Hself0. cbn. unfold token_path. now rewrite Hhome. }
  exists (this s1).
  split; [| split; [reflexivity | split; [now rewrite Hs1 | reflexivity]]].
  rewrite (constructor_run _ _ _ b Hb). f_equal. rewrite Hs1. cbn [this world].
  rewrite Hpath. unfold persisted. rewrite Hwr.
  change (token_path (with_files _ w)) with (token_path w).
  cbn [files with_files]. rewrite lookup_insert_eq. cbn [loaded JSON_stringify asTokenResponse].
  rewrite <- Hself0. unfold SmartAuth.with_currentToken, fresh, token_path.
  cbn. rewrite Hhome. reflexivity.
Qed.

Lemma reload_reads_like_original_witness :
  let w0 := Sample.world 5 (Sample.always 200 (Plain "-")) in
  let w := Sample.world 9000 (Sample.always 200 (Plain "-")) in
  let self0 := fresh Sample.options "https://auth.example.org" w0 in
  let s1 := snd (SmartAuth.saveToken
                   (mkSt (SmartAuth.with_currentToken (Object Sample.renewed) self0) w)) in
  SmartAuth.constructor (fun _ => None) Sample.options w0 = (Ok self0, w0)
  /\ writable w = true
  /\ exists reloaded,
       SmartAuth.constructor (fun _ => None) Sample.options (world s1)
       = (Ok reloaded, world s1)
       /\ reloaded = this s1
       /\ SmartAuth.currentToken reloaded = Object (stamped 9000 Sample.renewed)
       /\ forall w2, SmartAuth.getAccessToken (mkSt reloaded w2)
                     = SmartAuth.getAccessToken (mkSt (this s1) w2).
Proof.
  intros w0 w self0 s1.
  split; [reflexivity |]. split; [reflexivity |].
  exact (reload_reads_like_original (fun _ => None) Sample.options w0 w self0
           Sample.renewed eq_refl eq_refl eq_refl).
Defined.

(* ===================================================================== *)
(** ** The FHIR client *)
(* ===================================================================== *)

Lemma pick_manager_ok fc sa w token s :
  FhirClient.smartAuth fc = Some sa ->
  SmartAuth.getAccessToken (mkSt sa w) = (Ok token, s) ->
  pick fc w = (FromManager token,
               mkSt (FhirClient.with_smartAuth (this s) fc) (world s)).
Proof. intros Hsa Hget. unfold pick. now rewrite Hsa, Hget. Qed.

Lemma pick_manager_fails fc sa w e s :
  FhirClient.smartAuth fc = Some sa ->
  SmartAuth.getAccessToken (mkSt sa w) = (Throw e, s) ->
  pick fc w = (if truthy (FhirClient.accessToken fc)
               then Manual (FhirClient.accessToken fc) else NoToken,
               mkSt (FhirClient.with_smartAuth (this s) fc) (world s)).
Proof. intros Hsa Hget. unfold pick. now rewrite Hsa, Hget. Qed.

Lemma pick_no_manager fc w :
  FhirClient.smartAuth fc = None ->
  pick fc w = (if truthy (FhirClient.accessToken fc)
               then Manual (FhirClient.accessToken fc) else NoToken,
               mkSt fc w).
Proof. intros Hsa. unfold pick. now rewrite Hsa. Qed.

Lemma request_run URL_resolve fc w path options url :
  URL_resolve path (FhirClient.baseUrl fc) = Some url ->
  FhirClient.request URL_resolve path options (mkSt fc w) =
  let '(src, s) := pick fc w in
  let req := Calls.request url options src in
  (settle (fun r => FhirRequestFailed (status r) (statusText r)) (answer (world s) req),
   mkSt (this s) (after_fetch (world s) req)).
Proof.
  intros Hurl. unfold FhirClient.request.
  unfold bind at 1. unfold get_this at 1. cbv beta iota. cbn [this world].
  rewrite Hurl. unfold bind at 1. unfold pick.
  assert (Hfetch : forall src (s : St FhirClient.Obj),
    (response <- fetch url (FhirClient.ri_method options)
                   (request_headers options src) (FhirClient.ri_body options) ;;
     if negb (ok response)
     then throw (FhirRequestFailed (status response) (statusText response))
     else response_json response) s
    = (settle (fun r => FhirRequestFailed (status r) (statusText r))
         (answer (world s) (Calls.request url options src)),
       mkSt (this s) (after_fetch (world s) (Calls.request url options src)))).
  { intros src s. unfold bind at 1. rewrite fetch_run. cbv zeta.
    fold (Calls.request url options src).
    destruct (answer _ _) as [r | reason]; [| reflexivity].
    unfold settle. destruct (ok r); cbv [negb]; [| reflexivity].
    unfold response_json, JSON_parse. destruct (body r); reflexivity. }
  destruct (FhirClient.smartAuth fc) as [sa |].
  - unfold try_catch, FhirClient.call_smartAuth, zoom.
    unfold bind at 1. cbn [this world].
    destruct (SmartAuth.getAccessToken (mkSt sa w)) as [[token | e] s].
    + unfold ret at 1. apply (Hfetch (FromManager token)).
    + destruct (truthy (FhirClient.accessToken fc)).
      * unfold ret at 1. apply (Hfetch (Manual (FhirClient.accessToken fc))).
      * unfold ret at 1. apply (Hfetch NoToken).
  - destruct (truthy (FhirClient.accessToken fc)).
    + unfold ret at 1. apply (Hfetch (Manual (FhirClient.accessToken fc))).
    + unfold ret at 1. apply (Hfetch NoToken).
Qed.

Lemma executeQuery_run fc w query :
  FhirClient.executeQuery query (mkSt fc w) =
  let '(src, s) := pick fc w in
  if truthy (query_token src)
  then
    let req := Calls.query fc query (query_token src) in
    (settle (fun r => QueryExecutionFailed (status r) (statusText r) (body r))
       (answer (world s) req),
     mkSt (this s) (after_fetch (world s) req))
  else (Throw NoAccessToken, s).
Proof.
  unfold FhirClient.executeQuery.
  unfold bind at 1. unfold get_this at 1. cbv beta iota. cbn [this world].
  unfold bind at 1. unfold pick.
  assert (Hrest : forall token (s : St FhirClient.Obj),
    (if negb (truthy token)
     then throw NoAccessToken
     else
       response <- fetch (FhirClient.baseUrl fc +:+ "/api/secure/query") (Some "POST")
                     (<["Authorization" := FhirClient.bearer token]>
                        {[ "Content-Type" := "application/json" ]})
                     (Some (JSON_stringify (JQuery query))) ;;
       if negb (ok response)
       then (errorText <- response_text response ;;
             throw (QueryExecutionFailed (status response) (statusText response) errorText))
       else response_json response) s
    = if truthy token
      then (settle (fun r => QueryExecutionFailed (status r) (statusText r) (body r))
              (answer (world s) (Calls.query fc query token)),
            mkSt (this s) (after_fetch (world s) (Calls.query fc query token)))
      else (Throw NoAccessToken, s)).
  { intros token s. destruct (truthy token); cbv [negb]; [| reflexivity].
    unfold bind at 1. rewrite fetch_run. cbv zeta.
    fold (Calls.query fc query token).
    destruct (answer _ _) as [r | reason]; [| reflexivity].
    unfold settle. destruct (ok r); cbv [negb]; [| reflexivity].
    unfold response_json, JSON_parse. destruct (body r); reflexivity. }
  destruct (FhirClient.smartAuth fc) as [sa |].
  - unfold try_catch, FhirClient.call_smartAuth, zoom. cbn [this world].
    destruct (SmartAuth.getAccessToken (mkSt sa w)) as [[token | e] s].
    + apply (Hrest token).
    + destruct (truthy (FhirClient.accessToken fc)) eqn:Hm.
      * unfold ret at 1. cbn [query_token]. apply Hrest.
      * unfold ret at 1. apply (Hrest None).
  - destruct (truthy (FhirClient.accessToken fc)) eqn:Hm.
    + unfold ret at 1. apply Hrest.
    + unfold ret at 1. apply (Hrest None).
Qed.

Lemma request_headers_auth options token :
  request_headers options (FromManager token) !! "Authorization"
  = Some (FhirClient.bearer token)
  /\ request_headers options (Manual token) !! "Authorization"
     = Some (FhirClient.bearer token).
Proof. split; apply lookup_insert_eq. Qed.

Lemma request_sends URL_resolve fc w path options url src s :
  URL_resolve path (FhirClient.baseUrl fc) = Some url ->
  pick fc w = (src, s) ->
  sent (world (snd (FhirClient.request URL_resolve path options (mkSt fc w))))
  = sent (world s) ++ [Calls.request url options src].
Proof.
  intros Hurl Hpick. rewrite (request_run _ _ _ _ _ url Hurl), Hpick. reflexivity.
Qed.

Lemma executeQuery_sends fc w query src s :
  pick fc w = (src, s) ->
  truthy (query_token src) = true ->
  sent (world (snd (FhirClient.executeQuery query (mkSt fc w))))
  = sent (world s) ++ [Calls.query fc query (query_token src)].
Proof.
  intros Hpick Htok. rewrite executeQuery_run, Hpick, Htok. reflexivity.
Qed.

(** C10.  For a client [fc], whatever token [setAccessToken] left in it:
    - if a manager is attached and its token read succeeds, [request] sends
      one request whose Authorization header is the manager's token, and so
      does [executeQuery] (which sends nothing and fails with 'No access
      token available' if the manager's token is empty or undefined);
    - if the attached manager's read fails, or no manager is attached, and
      a non-empty token was set by hand, the one request sent carries the
      token set by hand. *)
Theorem manager_token_first (URL_resolve : string -> string -> option string)
    (fc : FhirClient.Obj) (w : World) (path : string)
    (options : FhirClient.RequestInit) (url query : string) :
  let resolves := URL_resolve path (FhirClient.baseUrl fc) = Some url in
  let after_request :=
    sent (world (snd (FhirClient.request URL_resolve path options (mkSt fc w)))) in
  let after_query :=
    sent (world (snd (FhirClient.executeQuery query (mkSt fc w)))) in
  (forall sa token s,
     FhirClient.smartAuth fc = Some sa ->
     SmartAuth.getAccessToken (mkSt sa w) = (Ok token, s) ->
     (resolves ->
      sends_with (sent (world s)) after_request (FhirClient.bearer token))
     /\ (truthy token = true ->
         sends_with (sent (world s)) after_query (FhirClient.bearer token))
     /\ (truthy token = false ->
         FhirClient.executeQuery query (mkSt fc w)
         = (Throw NoAccessToken,
            mkSt (FhirClient.with_smartAuth (this s) fc) (world s))))
  /\ (forall sa e s,
        FhirClient.smartAuth fc = Some sa ->
        SmartAuth.getAccessToken (mkSt sa w) = (Throw e, s) ->
        truthy (FhirClient.accessToken fc) = true ->
        (resolves ->
         sends_with (sent (world s)) after_request
           (FhirClient.bearer (FhirClient.accessToken fc)))
        /\ sends_with (sent (world s)) after_query
             (FhirClient.bearer (FhirClient.accessToken fc)))
  /\ (FhirClient.smartAuth fc = None ->
      truthy (FhirClient.accessToken fc) = true ->
      (resolves ->
       sends_with (sent w) after_request
         (FhirClient.bearer (FhirClient.accessToken fc)))
      /\ sends_with (sent w) after_query
           (FhirClient.bearer (FhirClient.accessToken fc))).
Proof.
  intros resolves after_request after_query.
  split; [| split].
  - intros sa token s Hsa Hget.
    pose proof (pick_manager_ok fc sa w token s Hsa Hget) as Hpick.
    split; [| split].
    + intros Hurl. eexists.
      split; [exact (request_sends _ _ _ _ _ _ _ _ Hurl Hpick) |].
      apply request_headers_auth.
    + intros Htok. eexists.
      split; [exact (executeQuery_sends _ _ _ _ _ Hpick Htok) |].
      apply lookup_insert_eq.
    + intros Htok. rewrite executeQuery_run, Hpick. cbn [query_token].
      now rewrite Htok.
  - intros sa e s Hsa Hget Hman.
    pose proof (pick_manager_fails fc sa w e s Hsa Hget) as Hpick.
    rewrite Hman in Hpick.
    split.
    + intros Hurl. eexists.
      split; [exact (request_sends _ _ _ _ _ _ _ _ Hurl Hpick) |].
      apply request_headers_auth.
    + eexists. split; [exact (executeQuery_sends _ _ _ _ _ Hpick Hman) |].
      apply lookup_insert_eq.
  - intros Hsa Hman.
    pose proof (pick_no_manager fc w Hsa) as Hpick. rewrite Hman in Hpick.
    split.
    + intros Hurl. eexists.
      split; [exact (request_sends _ _ _ _ _ _ _ _ Hurl Hpick) |].
      apply request_headers_auth.
    + eexists. split; [exact (executeQuery_sends _ _ _ _ _ Hpick Hman) |].
      apply lookup_insert_eq.
Qed.

Lemma manager_token_first_witness :
  let sa := Sample.manager (Object (Sample.credential None)) in
  let w := Sample.world 5 (Sample.always 200 (Stringified (JOther "{}"))) in
  let fc := this (snd (FhirClient.setAccessToken "by-hand"
                         (mkSt (FhirClient.constructor "https://fhir.example.org/" (Some sa)) w))) in
  Sample.resolve "Patient/1" (FhirClient.baseUrl fc)
  = Some "https://fhir.example.org/Patient/1"
  /\ SmartAuth.getAccessToken (mkSt sa w) = (Ok (Some "A1"), mkSt sa w)
  /\ FhirClient.accessToken fc = Some "by-hand"
  /\ sends_with []
       (sent (world (snd (FhirClient.request Sample.resolve "Patient/1"
                            FhirClient.no_options (mkSt fc w)))))
       "Bearer A1"
  /\ sends_with []
       (sent (world (snd (FhirClient.executeQuery "Patient" (mkSt fc w)))))
       "Bearer A1".
Proof.
  intros sa w fc.
  split; [reflexivity |]. split; [vm_compute; reflexivity |]. split; [reflexivity |].
  destruct (manager_token_first Sample.resolve fc w "Patient/1" FhirClient.no_options
              "https://fhir.example.org/Patient/1" "Patient") as [Hfirst _].
  destruct (Hfirst sa (Some "A1") (mkSt sa w) eq_refl) as (Hreq & Hq & _).
  - vm_compute; reflexivity.
  - split; [exact (Hreq eq_refl) | exact (Hq eq_refl)].
Defined.

(** C1, as the code has it.  Let the manager attached to a client fail to
    produce a token while no token was set by hand.  [executeQuery] then
    fails with its own 'No access token available' and sends nothing: the
    state is the one the failed read left.  [request] does not fail on that
    account: it sends the request with the headers it had (no Authorization
    header added) and its outcome is the outcome of that HTTP call. *)
Theorem token_failure_in_client (URL_resolve : string -> string -> option string)
    (fc : FhirClient.Obj) (sa : SmartAuth.Obj) (w : World) (e : Error)
    (s : St SmartAuth.Obj) :
  FhirClient.smartAuth fc = Some sa ->
  SmartAuth.getAccessToken (mkSt sa w) = (Throw e, s) ->
  truthy (FhirClient.accessToken fc) = false ->
  (forall query,
     FhirClient.executeQuery query (mkSt fc w)
     = (Throw NoAccessToken, mkSt (FhirClient.with_smartAuth (this s) fc) (world s)))
  /\ (forall path options url,
        URL_resolve path (FhirClient.baseUrl fc) = Some url ->
        let req := Calls.request url options NoToken in
        FhirClient.request URL_resolve path options (mkSt fc w)
        = (settle (fun r => FhirRequestFailed (status r) (statusText r))
             (answer (world s) req),
           mkSt (FhirClient.with_smartAuth (this s) fc) (after_fetch (world s) req))).
Proof.
  intros Hsa Hget Hman.
  pose proof (pick_manager_fails fc sa w e s Hsa Hget) as Hpick.
  rewrite Hman in Hpick.
  split.
  - intros query. rewrite executeQuery_run, Hpick. reflexivity.
  - intros path options url Hurl req.
    rewrite (request_run _ _ _ _ _ url Hurl), Hpick. reflexivity.
Qed.

Lemma token_failure_in_client_witness :
  let sa := Sample.manager Null in
  let w := Sample.world 5 (Sample.always 200 (Stringified (JOther "{}"))) in
  let fc := FhirClient.constructor "https://fhir.example.org/" (Some sa) in
  SmartAuth.getAccessToken (mkSt sa w) = (Throw NoCredential, mkSt sa w)
  /\ truthy (FhirClient.accessToken fc) = false
  /\ FhirClient.executeQuery "Patient" (mkSt fc w)
     = (Throw NoAccessToken, mkSt (FhirClient.with_smartAuth sa fc) w).
Proof.
  intros sa w fc.
  split; [reflexivity |]. split; [reflexivity |].
  exact (proj1 (token_failure_in_client Sample.resolve fc sa w NoCredential (mkSt sa w)
                  eq_refl eq_refl eq_refl) "Patient").
Defined.

(** C1 as stated fails for [request]: with a manager that holds no
    credential and no token set by hand, the token read fails with 'No
    token available', yet the request goes out and the call returns the
    document the server answered. *)
Lemma request_goes_out_without_token :
  let sa := Sample.manager Null in
  let w := Sample.world 5 (Sample.always 200 (Stringified (JOther "{}"))) in
  let fc := FhirClient.constructor "https://fhir.example.org/" (Some sa) in
  let run := FhirClient.request Sample.resolve "Patient/1" FhirClient.no_options
               (mkSt fc w) in
  SmartAuth.getAccessToken (mkSt sa w) = (Throw NoCredential, mkSt sa w)
  /\ fst run = Ok (JObject (JOther "{}"))
  /\ sent (world (snd run))
     = [Calls.request "https://fhir.example.org/Patient/1" FhirClient.no_options NoToken]
  /\ ~ (fst run = Throw NoCredential /\ sent (world (snd run)) = sent w).
Proof.
  intros sa w fc run.
  assert (Hrun : fst run = Ok (JObject (JOther "{}"))) by (vm_compute; reflexivity).
  split; [reflexivity |]. split; [exact Hrun |]. split; [vm_compute; reflexivity |].
  intros [Hthrow _]. rewrite Hrun in Hthrow. discriminate.
Qed.

(* ===================================================================== *)
(** ** The Fasten server: probe and authenticated requests *)
(* ===================================================================== *)

Lemma makeAuthenticatedRequest_unset g w endpoint method payload :
  truthy (Fasten.authToken g) = false ->
  Fasten.makeAuthenticatedRequest endpoint method payload (mkSt g w)
  = (Throw NoAuthToken, mkSt g w).
Proof.
  intros Hg. unfold Fasten.makeAuthenticatedRequest.
  unfold bind at 1. unfold get_this at 1. cbv beta iota. cbn [this world].
  now rewrite Hg.
Qed.

Lemma makeAuthenticatedRequest_run g w endpoint method payload :
  truthy (Fasten.authToken g) = true ->
  Fasten.makeAuthenticatedRequest endpoint method payload (mkSt g w) =
  let req := Calls.authenticated g endpoint method payload in
  let w' := after_fetch w req in
  match answer w req with
  | NetworkError reason => (Throw (TransportFailure reason), mkSt g w')
  | Reply r =>
      if ok r
      then match body r with
           | Stringified j => (Ok j, mkSt g w')
           | Plain _ | Form _ => (Throw SyntaxError, mkSt g w')
           end
      else if status r =? 401
           then (Throw AuthenticationExpired, mkSt {| Fasten.authToken := None |} w')
           else (Throw (ApiRequestFailed (status r)), mkSt g w')
  end.
Proof.
  intros Hg. cbv zeta. unfold Fasten.makeAuthenticatedRequest.
  unfold bind at 1. unfold get_this at 1. cbv beta iota. cbn [this world].
  rewrite Hg. cbv [negb]. cbv zeta. unfold try_catch.
  unfold bind at 1. rewrite fetch_run. cbv zeta. cbn [this world].
  fold (Calls.authenticated g endpoint method payload).
  destruct (answer w _) as [r | reason]; [| reflexivity].
  destruct (ok r); cbv [negb].
  - unfold response_json, JSON_parse. destruct (body r); reflexivity.
  - destruct (status r =? 401); reflexivity.
Qed.





(** C7, as the code has it.  [isTokenValid] never fails; it sends the probe
    and answers [true] exactly when the probe comes back, without an
    exception, with status 200. *)
Theorem isTokenValid_iff_200 (g : Fasten.Globals) (w : World) (token : string) :
  exists valid : bool,
    Fasten.isTokenValid token (mkSt g w)
    = (Ok valid, mkSt g (after_fetch w (Calls.probe token)))
    /\ (valid = true <->
        exists r, answer w (Calls.probe token) = Reply r /\ status r = 200).
Proof.
  unfold Fasten.isTokenValid, try_catch.
  unfold bind at 1. rewrite fetch_run. cbv zeta. cbn [this world].
  fold (Calls.probe token).
  destruct (answer w (Calls.probe token)) as [r | reason].
  - exists (status r =? 200). split; [reflexivity |]. split.
    + intros H200. exists r. split; [reflexivity | now apply Z.eqb_eq].
    + intros (r' & Hr & H200). injection Hr as <-. now apply Z.eqb_eq.
  - exists false. split; [reflexivity |]. split; [discriminate |].
    intros (r' & Hr & _). discriminate.
Qed.

(** C7 as stated fails: a probe answered with status 500, no exception and
    no 401, is reported as not valid. *)
Lemma probe_answered_500_is_invalid :
  let g := {| Fasten.authToken := Some "T1" |} in
  let w := Sample.world 5 (Sample.always 500 (Plain "Internal Server Error")) in
  (exists r, answer w (Calls.probe "T1") = Reply r /\ status r <> 401)
  /\ fst (Fasten.isTokenValid "T1" (mkSt g w)) = Ok false
  /\ fst (Fasten.isTokenValid "T1" (mkSt g w)) <> Ok true.
Proof.
  intros g w. split; [| split].
  - eexists. split; [reflexivity |]. cbn. discriminate.
  - vm_compute; reflexivity.
  - vm_compute. discriminate.
Qed.

(* ===================================================================== *)
(** ** More on the credential manager *)
(* ===================================================================== *)

Lemma clearToken_run self w :
  SmartAuth.clearToken (mkSt self w)
  = (Ok tt, mkSt (SmartAuth.with_currentToken Null self)
                 (unlinked (SmartAuth.tokenStorage self) w)).
Proof.
  unfold SmartAuth.clearToken, try_catch, unlinked.
  unfold bind at 1. unfold SmartAuth.set_currentToken at 1.
  unfold bind at 1, get_this at 1, set_this at 1. cbv beta iota. cbn [this world].
  unfold fs_existsSync, fs_unlinkSync, bind, get_this, get_world, set_world, ret, throw.
  cbn [this world SmartAuth.tokenStorage SmartAuth.with_currentToken].
  destruct (files w !! SmartAuth.tokenStorage self) as [n |] eqn:Hf; cbn.
  - rewrite Hf. destruct (writable w); reflexivity.
  - reflexivity.
Qed.

(** X1.  [clearToken] always returns: the manager holds no credential
    afterwards, no request is sent, the token file is gone when the disk
    lets it go (and is what it was when it does not), and every later read
    fails with 'No token available' until a new credential is acquired. *)
Theorem clearToken_forgets (self : SmartAuth.Obj) (w : World) :
  let run := SmartAuth.clearToken (mkSt self w) in
  fst run = Ok tt
  /\ SmartAuth.currentToken (this (snd run)) = Null
  /\ sent (world (snd run)) = sent w
  /\ files (world (snd run)) !! SmartAuth.tokenStorage self
     = (if writable w then None else files w !! SmartAuth.tokenStorage self)
  /\ forall w2, SmartAuth.getAccessToken (mkSt (this (snd run)) w2)
                = (Throw NoCredential, mkSt (this (snd run)) w2).
Proof.
  cbv zeta. rewrite clearToken_run. cbn [fst snd this world].
  split; [reflexivity |]. split; [reflexivity |].
  split; [| split].
  - unfold unlinked. destruct (files w !! _); [destruct (writable w) |]; reflexivity.
  - unfold unlinked.
    destruct (files w !! SmartAuth.tokenStorage self) as [n |] eqn:Hf.
    + destruct (writable w); [apply lookup_delete_eq | exact Hf].
    + rewrite Hf. now destruct (writable w).
  - intros w2. now apply getAccessToken_none.
Qed.

(** X2.  What the token file holds survives [clearToken] when the disk
    refuses the deletion: the running manager forgets its credential, but a
    manager built afterwards from the same options loads the document of
    the file again (an object as the live credential, [null] as none). *)
Theorem cleared_credential_returns (URL_origin : string -> option string)
    (options : SmartAuth.Options) (w0 w : World) (self0 : SmartAuth.Obj)
    (c : Held) (j : Json) :
  SmartAuth.constructor URL_origin options w0 = (Ok self0, w0) ->
  homedir w = homedir w0 ->
  writable w = false ->
  files w !! token_path w = Some (File (Stringified j)) ->
  let s1 := snd (SmartAuth.clearToken (mkSt (SmartAuth.with_currentToken c self0) w)) in
  SmartAuth.currentToken (this s1) = Null
  /\ exists reloaded,
       SmartAuth.constructor URL_origin options (world s1) = (Ok reloaded, world s1)
       /\ SmartAuth.currentToken reloaded = hold j
       /\ (forall o, j = JObject o ->
           SmartAuth.currentToken reloaded = Object (asTokenResponse o))
       /\ (j = JNull -> SmartAuth.currentToken reloaded = Null).
Proof.
  intros Hnew Hhome Hwr Hfile s1.
  destruct (base_of URL_origin options) as [b |] eqn:Hb;
    [| rewrite (constructor_fails _ _ _ Hb) in Hnew; discriminate].
  rewrite (constructor_run _ _ _ b Hb) in Hnew. injection Hnew as Hself0.
  assert (Hpath : SmartAuth.tokenStorage self0 = token_path w).
  { rewrite <- Hself0. cbn. unfold token_path. now rewrite Hhome. }
  assert (Hs1 : s1 = mkSt (SmartAuth.with_currentToken Null self0) w).
  { unfold s1. rewrite clearToken_run. cbn [snd SmartAuth.tokenStorage
      SmartAuth.with_currentToken]. rewrite Hpath. unfold unlinked.
    now rewrite Hfile, Hwr. }
  rewrite Hs1. cbn [this world]. split; [reflexivity |].
  eexists. split; [apply (constructor_run _ _ _ b Hb) |].
  cbn [SmartAuth.currentToken SmartAuth.with_currentToken]. rewrite Hfile.
  cbn [loaded]. split; [reflexivity |]. split.
  - now intros o ->.
  - now intros ->.
Qed.

Lemma cleared_credential_returns_witness :
  let on_disk := {[ "/home/u/.fhir-mcp-tokens.json"
                    := File (Stringified (JToken (Sample.credential (Some "R1")))) ]} in
  let w0 := Sample.world 5 (Sample.always 200 (Plain "-")) in
  let w := with_writable false (with_files on_disk w0) in
  let self0 := fresh Sample.options "https://auth.example.org" w0 in
  let s1 := snd (SmartAuth.clearToken
                   (mkSt (SmartAuth.with_currentToken
                            (Object (Sample.credential (Some "R1"))) self0) w)) in
  SmartAuth.constructor (fun _ => None) Sample.options w0 = (Ok self0, w0)
  /\ writable w = false
  /\ SmartAuth.currentToken (this s1) = Null
  /\ exists reloaded,
       SmartAuth.constructor (fun _ => None) Sample.options (world s1)
       = (Ok reloaded, world s1)
       /\ SmartAuth.currentToken reloaded = Object (Sample.credential (Some "R1")).
Proof.
  intros on_disk w0 w self0 s1.
  split; [reflexivity |]. split; [reflexivity |].
  destruct (cleared_credential_returns (fun _ => None) Sample.options w0 w self0
              (Object (Sample.credential (Some "R1")))
              (JToken (Sample.credential (Some "R1"))))
    as (Hnull & reloaded & Hnew & Hheld & _).
  - reflexivity.
  - reflexivity.
  - reflexivity.
  - vm_compute; reflexivity.
  - split; [exact Hnull |]. exists reloaded. split; [exact Hnew | exact Hheld].
Defined.

(** X3.  Without expiry information ([expires_in] missing or zero) a read
    returns the stored access token at every clock value and changes
    nothing: no refresh, however old the credential. *)
Theorem read_without_expiry (self : SmartAuth.Obj) (tok : TokenResponse) (w : World) :
  SmartAuth.currentToken self = Object tok ->
  truthy (expires_in tok) = false ->
  SmartAuth.getAccessToken (mkSt self w) = (Ok (access_token tok), mkSt self w).
Proof.
  intros Hc He. rewrite (getAccessToken_live self tok w Hc).
  unfold near_expiry, expiresAt. now rewrite He.
Qed.

Lemma read_without_expiry_witness :
  let tok := {| access_token := Some "A1"; token_type := Some "Bearer";
                expires_in := Some 0; refresh_token := Some "R1"; scope := None;
                patient := None; id_token := None; issued_at := Some 1000000 |} in
  let self := Sample.manager (Object tok) in
  let w := Sample.world 99000000000 (Sample.always 200 (Plain "-")) in
  truthy (expires_in tok) = false
  /\ SmartAuth.getAccessToken (mkSt self w) = (Ok (Some "A1"), mkSt self w).
Proof.
  intros tok self w. split; [reflexivity |].
  apply (read_without_expiry self tok w); reflexivity.
Defined.

(** The requests a read has sent once its refresh was answered with [j]. *)
Lemma sent_read_back_accepted self j w :
  sent (world (snd (match accepted self j w with
                    | (Ok _, s') => read_back s'
                    | (Throw e, s') => (Throw e, s')
                    end))) = sent w.
Proof.
  pose proof (sent_accepted self j w) as Hs.
  destruct (accepted self j w) as [[v | err] s'];
    cbn [snd] in Hs |- *; unfold read_back;
    try destruct (SmartAuth.currentToken (this s')); exact Hs.
Qed.

(** A read of a credential near its horizon that holds a refresh token. *)
Lemma getAccessToken_refreshing self tok w :
  SmartAuth.currentToken self = Object tok ->
  near_expiry tok (now w) = true ->
  truthy (refresh_token tok) = true ->
  SmartAuth.getAccessToken (mkSt self w) =
  let req := Sends.refresh self (refresh_token tok) in
  let w' := after_fetch w req in
  match answer w req with
  | NetworkError reason => (Throw (TransportFailure reason), mkSt self w')
  | Reply r =>
      if ok r
      then match body r with
           | Stringified j =>
               match accepted self j w' with
               | (Ok _, s') => read_back s'
               | (Throw e, s') => (Throw e, s')
               end
           | Plain _ | Form _ => (Throw SyntaxError, mkSt self w')
           end
      else (Throw (TokenRefreshFailed (status r) (statusText r)), mkSt self w')
  end.
Proof.
  intros Hc Hnear Hrt. rewrite (getAccessToken_live self tok w Hc), Hnear, Hrt.
  rewrite refreshToken_run by (rewrite tokenToUse_arg; assumption).
  rewrite (tokenToUse_arg self _ Hrt). cbv zeta.
  destruct (answer w _) as [r | reason]; [| reflexivity].
  destruct (ok r); [| reflexivity].
  destruct (body r); reflexivity.
Qed.

(** Such a read sends the refresh grant and nothing else. *)
Lemma getAccessToken_refreshing_sends self tok w :
  SmartAuth.currentToken self = Object tok ->
  near_expiry tok (now w) = true ->
  truthy (refresh_token tok) = true ->
  sent (world (snd (SmartAuth.getAccessToken (mkSt self w))))
  = sent w ++ [Sends.refresh self (refresh_token tok)].
Proof.
  intros Hc Hnear Hrt.
  rewrite (getAccessToken_refreshing self tok w Hc Hnear Hrt). cbv zeta.
  destruct (answer w _) as [r | reason]; [| reflexivity].
  destruct (ok r); [| reflexivity].
  destruct (body r) as [s | ps | j]; try reflexivity.
  apply sent_read_back_accepted.
Qed.

(** X5.  A credential valid for less than five minutes (0 < expires_in <
    300) is within the refresh margin from the moment it is issued: at
    every clock value from [issued_at] on, a read fails with 'Token is
    expired and no refresh token is available' if it has no refresh token,
    and otherwise goes to the token endpoint first. *)
Theorem short_lived_credential (self : SmartAuth.Obj) (tok : TokenResponse)
    (w : World) (e i : Z) :
  SmartAuth.currentToken self = Object tok ->
  expires_in tok = Some e -> issued_at tok = Some i ->
  0 < e < 300 -> 0 < i -> i <= now w ->
  (truthy (refresh_token tok) = false ->
     SmartAuth.getAccessToken (mkSt self w) = (Throw TokenExpiredNoRefresh, mkSt self w))
  /\ (truthy (refresh_token tok) = true ->
      sent (world (snd (SmartAuth.getAccessToken (mkSt self w))))
      = sent w ++ [Sends.refresh self (refresh_token tok)]).
Proof.
  intros Hc He Hi Hshort Hpos Hnow.
  assert (Hnear : near_expiry tok (now w) = true).
  { rewrite (near_expiry_horizon tok e i (now w) He Hi) by lia.
    rewrite Z.gtb_ltb. apply Z.ltb_lt. unfold margin. lia. }
  split; intros Hrt.
  - now rewrite (getAccessToken_live self tok w Hc), Hnear, Hrt.
  - exact (getAccessToken_refreshing_sends self tok w Hc Hnear Hrt).
Qed.

Lemma short_lived_credential_witness :
  let tok := {| access_token := Some "A1"; token_type := Some "Bearer";
                expires_in := Some 60; refresh_token := None; scope := None;
                patient := None; id_token := None; issued_at := Some 1000000 |} in
  let self := Sample.manager (Object tok) in
  let w := Sample.world 1000000 (Sample.always 200 (Plain "-")) in
  truthy (refresh_token tok) = false
  /\ SmartAuth.getAccessToken (mkSt self w) = (Throw TokenExpiredNoRefresh, mkSt self w).
Proof.
  intros tok self w. split; [reflexivity |].
  apply (short_lived_credential self tok w 60 1000000); try reflexivity; cbn; lia.
Defined.

(** A failure other than [TypeError] that leaves the manager and the
    files alone meets both notions of a clean failure. *)
Lemma clean_throw {A} (e0 e : Error) (self : SmartAuth.Obj) (w w' : World) :
  (forall reason, e0 <> TypeError reason) ->
  files w' = files w ->
  fst (@Throw A e0, mkSt self w') = Throw e ->
  files (world (snd (@Throw A e0, mkSt self w'))) = files w
  /\ ((forall reason, e <> TypeError reason) ->
      this (snd (@Throw A e0, mkSt self w')) = self)
  /\ ((exists reason, e = TypeError reason) ->
      exists p, truthy p = true
                /\ this (snd (@Throw A e0, mkSt self w'))
                   = SmartAuth.with_currentToken (Prim p) self).
Proof.
  intros Hne Hfiles He. cbn [fst] in He. injection He as <-. cbn [snd this world].
  split; [exact Hfiles |]. split; [reflexivity |].
  intros [reason Hr]. now destruct (Hne reason).
Qed.

(** [saveToken] is the only step of [accepted] that can fail, and it fails
    on a truthy primitive value, after the assignment. *)
Lemma accepted_fails self j w e :
  fst (accepted self j w) = Throw e ->
  exists p, truthy p = true
            /\ e = TypeError "Cannot create property 'issued_at'"
            /\ snd (accepted self j w) = mkSt (SmartAuth.with_currentToken (Prim p) self) w.
Proof.
  destruct j as [o | | p | items]; cbn [accepted];
    try (unfold installed; cbn [fst]; discriminate).
  cbn [fst snd]. destruct (truthy p) eqn:Hp; [| discriminate].
  intros He. injection He as <-. now exists p.
Qed.

Lemma accepted_fails_clean self j w w0 e :
  files w = files w0 ->
  fst (accepted self j w) = Throw e ->
  files (world (snd (accepted self j w))) = files w0
  /\ ((forall reason, e <> TypeError reason) ->
      this (snd (accepted self j w)) = self)
  /\ ((exists reason, e = TypeError reason) ->
      exists p, truthy p = true
                /\ this (snd (accepted self j w))
                   = SmartAuth.with_currentToken (Prim p) self).
Proof.
  intros Hfiles He.
  destruct (accepted_fails self j w e He) as (p & Hp & -> & ->).
  cbn [this world]. split; [exact Hfiles |]. split.
  - intros Hne. now destruct (Hne "Cannot create property 'issued_at'").
  - intros _. now exists p.
Qed.

Lemma exchange_fails_clean code :
  fails_clean_but_TypeError (SmartAuth.exchangeCodeForToken code).
Proof.
  intros self w e. rewrite exchange_run. cbv zeta.
  destruct (answer w _) as [r | reason];
    [| apply clean_throw; [discriminate | reflexivity]].
  destruct (ok r); [| apply clean_throw; [discriminate | reflexivity]].
  destruct (body r) as [s | ps | j];
    [apply clean_throw; [discriminate | reflexivity] ..
    | now apply accepted_fails_clean].
Qed.

Lemma refresh_fails_clean arg : fails_clean_but_TypeError (SmartAuth.refreshToken arg).
Proof.
  intros self w e.
  destruct (truthy (tokenToUse self arg)) eqn:Htok.
  - rewrite refreshToken_run by exact Htok. cbv zeta.
    destruct (answer w _) as [r | reason];
      [| apply clean_throw; [discriminate | reflexivity]].
    destruct (ok r); [| apply clean_throw; [discriminate | reflexivity]].
    destruct (body r) as [s | ps | j];
      [apply clean_throw; [discriminate | reflexivity] ..
      | now apply accepted_fails_clean].
  - rewrite refreshToken_nothing by exact Htok.
    apply clean_throw; [discriminate | reflexivity].
Qed.

Lemma signIn_fails_clean username password :
  fails_clean (SmartAuth.signIn username password).
Proof.
  intros self w e. rewrite signIn_run. cbv zeta.
  destruct (answer w _) as [r | reason]; [| now split].
  destruct (ok r); [| now split].
  destruct (body r) as [s | ps | j]; [now split | now split |].
  destruct (reply_properties j); [unfold installed; cbn [fst]; discriminate | now split].
Qed.

(** X6.  Whatever makes [signIn] fail (a network failure, a status outside
    200..299, a body that is not JSON, a body that is [null]), the manager
    object, with its live credential, and the files are left as they were.
    The same holds of [exchangeCodeForToken] and [refreshToken] (for which
    a missing refresh token is one more failure) with one exception: a 2xx
    answer holding a truthy primitive value (a number, a string, [true])
    fails with a [TypeError] raised by [saveToken] after [currentToken] was
    replaced by that value; the files are untouched there too. *)
Theorem acquisitions_fail_clean :
  (forall code, fails_clean_but_TypeError (SmartAuth.exchangeCodeForToken code))
  /\ (forall arg, fails_clean_but_TypeError (SmartAuth.refreshToken arg))
  /\ (forall username password, fails_clean (SmartAuth.signIn username password)).
Proof.
  split; [exact exchange_fails_clean |].
  split; [exact refresh_fails_clean | exact signIn_fails_clean].
Qed.

Lemma acquisitions_fail_clean_witness :
  let self := Sample.manager (Object (Sample.credential (Some "R1"))) in
  let w := Sample.world 5 (Sample.always 200 (Stringified (JPrimitive (PNum 123)))) in
  let down := Sample.world 5 (Sample.always 200 (Plain "<html>")) in
  fst (SmartAuth.exchangeCodeForToken "abc" (mkSt self w))
  = Throw (TypeError "Cannot create property 'issued_at'")
  /\ files (world (snd (SmartAuth.exchangeCodeForToken "abc" (mkSt self w)))) = files w
  /\ (exists p, truthy p = true
                /\ this (snd (SmartAuth.exchangeCodeForToken "abc" (mkSt self w)))
                   = SmartAuth.with_currentToken (Prim p) self)
  /\ fst (SmartAuth.signIn "a" "b" (mkSt self down)) = Throw SyntaxError
  /\ this (snd (SmartAuth.signIn "a" "b" (mkSt self down))) = self.
Proof.
  intros self w down.
  assert (Hrun : fst (SmartAuth.exchangeCodeForToken "abc" (mkSt self w))
                 = Throw (TypeError "Cannot create property 'issued_at'"))
    by reflexivity.
  destruct (proj1 acquisitions_fail_clean "abc" self w _ Hrun) as (Hfiles & _ & Hprim).
  split; [exact Hrun |]. split; [exact Hfiles |].
  split; [apply Hprim; eexists; reflexivity |].
  split; [reflexivity |].
  apply (proj2 (proj2 acquisitions_fail_clean) "a" "b" self down SyntaxError).
  reflexivity.
Defined.

(** X7.  A read that fails leaves the files as they were and, unless it
    fails with a [TypeError], the manager too: a refresh that is refused or
    does not get through does not evict the credential, and the next read
    tries again.  When a read fails with a [TypeError], [currentToken]
    holds [null] or a truthy primitive value (what a refresh answered 2xx
    with such a document left there) and the rest of the manager is as it
    was. *)
Theorem failed_read_keeps_credential (self : SmartAuth.Obj) (w : World) (e : Error) :
  fst (SmartAuth.getAccessToken (mkSt self w)) = Throw e ->
  files (world (snd (SmartAuth.getAccessToken (mkSt self w)))) = files w
  /\ ((forall reason, e <> TypeError reason) ->
      this (snd (SmartAuth.getAccessToken (mkSt self w))) = self)
  /\ ((exists reason, e = TypeError reason) ->
      exists v, this (snd (SmartAuth.getAccessToken (mkSt self w)))
                = SmartAuth.with_currentToken v self
                /\ (v = Null \/ exists p, v = Prim p /\ truthy p = true)).
Proof.
  destruct (truthy (SmartAuth.currentToken self)) eqn:Hc.
  2:{ rewrite (getAccessToken_none self w Hc). cbn [fst snd this world].
      intros He. injection He as <-. split; [reflexivity |]. split; [reflexivity |].
      intros [reason Hr]. discriminate Hr. }
  rewrite (getAccessToken_run self w Hc). cbv zeta.
  set (tok := view (SmartAuth.currentToken self)).
  destruct (near_expiry tok (now w)); [| discriminate].
  destruct (truthy (refresh_token tok)) eqn:Hrt.
  2:{ cbn [fst snd this world]. intros He. injection He as <-.
      split; [reflexivity |]. split; [reflexivity |].
      intros [reason Hr]. discriminate Hr. }
  rewrite refreshToken_run by (rewrite tokenToUse_arg; assumption).
  rewrite (tokenToUse_arg self _ Hrt). cbv zeta.
  set (req := Sends.refresh self (refresh_token tok)).
  assert (Hclean : forall e0 : Error,
            (forall reason, e0 <> TypeError reason) ->
            fst (@Throw (option string) e0, mkSt self (after_fetch w req)) = Throw e ->
            files (world (snd (@Throw (option string) e0, mkSt self (after_fetch w req))))
            = files w
            /\ ((forall reason, e <> TypeError reason) ->
                this (snd (@Throw (option string) e0, mkSt self (after_fetch w req))) = self)
            /\ ((exists reason, e = TypeError reason) ->
                exists v, this (snd (@Throw (option string) e0, mkSt self (after_fetch w req)))
                          = SmartAuth.with_currentToken v self
                          /\ (v = Null \/ exists p, v = Prim p /\ truthy p = true))).
  { intros e0 Hne He. cbn [fst] in He. injection He as <-. cbn [snd this world].
    split; [reflexivity |]. split; [reflexivity |].
    intros [reason Hr]. now destruct (Hne reason). }
  destruct (answer w req) as [r | reason]; [| apply Hclean; discriminate].
  destruct (ok r); [| apply Hclean; discriminate].
  destruct (body r) as [s | ps | j]; [apply Hclean; discriminate .. |].
  destruct j as [o | | p | items]; cbn [accepted].
  - unfold installed, read_back.
    cbn [this fst SmartAuth.currentToken SmartAuth.with_currentToken]. discriminate.
  - unfold read_back. cbn [this fst snd world SmartAuth.currentToken
                           SmartAuth.with_currentToken].
    intros He. injection He as <-. split; [reflexivity |]. split.
    + intros Hne. now destruct (Hne "Cannot read properties of null").
    + intros _. exists Null. split; [reflexivity | now left].
  - destruct (truthy p) eqn:Hp.
    + cbn [fst snd this world]. intros He. injection He as <-.
      split; [reflexivity |]. split.
      * intros Hne. now destruct (Hne "Cannot create property 'issued_at'").
      * intros _. exists (Prim p). split; [reflexivity |]. right. now exists p.
    + unfold read_back. cbn [this fst SmartAuth.currentToken
                             SmartAuth.with_currentToken]. discriminate.
  - unfold read_back. cbn [this fst SmartAuth.currentToken
                           SmartAuth.with_currentToken]. discriminate.
Qed.

Lemma failed_read_keeps_credential_witness :
  let tok := Sample.credential (Some "R1") in
  let self := Sample.manager (Object tok) in
  let w := Sample.world 99000000000 (Sample.always 503 (Plain "down")) in
  fst (SmartAuth.getAccessToken (mkSt self w)) = Throw (TokenRefreshFailed 503 "-")
  /\ this (snd (SmartAuth.getAccessToken (mkSt self w))) = self
  /\ files (world (snd (SmartAuth.getAccessToken (mkSt self w)))) = files w.
Proof.
  intros tok self w.
  assert (Hrun : fst (SmartAuth.getAccessToken (mkSt self w))
                 = Throw (TokenRefreshFailed 503 "-")) by (vm_compute; reflexivity).
  split; [exact Hrun |].
  destruct (failed_read_keeps_credential self w _ Hrun) as (Hfiles & Hthis & _).
  split; [apply Hthis; discriminate | exact Hfiles].
Defined.

(** X8.  A read sends at most one request, and that one is the refresh
    grant for the stored refresh token, addressed to the token endpoint. *)
Theorem read_sends_at_most_one (self : SmartAuth.Obj) (w : World) :
  sent (world (snd (SmartAuth.getAccessToken (mkSt self w)))) = sent w
  \/ exists tok,
       SmartAuth.currentToken self = Object tok
       /\ sent (world (snd (SmartAuth.getAccessToken (mkSt self w))))
          = sent w ++ [Sends.refresh self (refresh_token tok)]
       /\ req_url (Sends.refresh self (refresh_token tok)) = SmartAuth.tokenUrl self.
Proof.
  assert (Hquiet : forall v, SmartAuth.currentToken self = v ->
            truthy v = true -> near_expiry (view v) (now w) = false ->
            sent (world (snd (SmartAuth.getAccessToken (mkSt self w)))) = sent w).
  { intros v Hv Ht Hfar. rewrite getAccessToken_run by (now rewrite Hv).
    cbv zeta. now rewrite Hv, Hfar. }
  destruct (SmartAuth.currentToken self) as [| p | items stamp | tok] eqn:Hc.
  - left. now rewrite getAccessToken_none by (now rewrite Hc).
  - left. destruct (truthy (Prim p)) eqn:Hp.
    + now apply (Hquiet (Prim p)).
    + now rewrite getAccessToken_none by (now rewrite Hc).
  - left. now apply (Hquiet (Arr items stamp)).
  - destruct (near_expiry tok (now w)) eqn:Hnear.
    + destruct (truthy (refresh_token tok)) eqn:Hrt.
      * right. exists tok. split; [reflexivity |]. split; [| reflexivity].
        exact (getAccessToken_refreshing_sends self tok w Hc Hnear Hrt).
      * left. now rewrite (getAccessToken_live self tok w Hc), Hnear, Hrt.
    + left. now rewrite (getAccessToken_live self tok w Hc), Hnear.
Qed.

Lemma refreshToken_sends self w arg :
  truthy (tokenToUse self arg) = true ->
  sent (world (snd (SmartAuth.refreshToken arg (mkSt self w))))
  = sent w ++ [Sends.refresh self (tokenToUse self arg)].
Proof.
  intros Htok. rewrite refreshToken_run by exact Htok. cbv zeta.
  destruct (answer w _) as [r | reason]; [| reflexivity].
  destruct (ok r); [| reflexivity].
  destruct (body r) as [s | ps | j]; try reflexivity.
  apply sent_accepted.
Qed.

Lemma stamped_fields t tok :
  access_token (stamped t tok) = access_token tok
  /\ token_type (stamped t tok) = token_type tok
  /\ expires_in (stamped t tok) = expires_in tok
  /\ refresh_token (stamped t tok) = refresh_token tok
  /\ issued_at (stamped t tok)
     = (if truthy (issued_at tok) then issued_at tok else Some t).
Proof.
  unfold stamped. destruct (truthy (issued_at tok)); repeat split; reflexivity.
Qed.

Lemma files_persisted path tok w :
  writable w = true ->
  files (persisted path tok w) !! path = Some (File (JSON_stringify (JToken tok))).
Proof.
  intros Hw. unfold persisted. rewrite Hw. cbn [files with_files].
  apply lookup_insert_eq.
Qed.

(** X9.  A code exchange answered with a 2xx JSON object replaces the live
    credential by that object, whatever was live before: the access token,
    kind, expiry and refresh token are the object's; [issued_at] is the
    object's own when it has one (non-zero) and the clock value at the
    answer otherwise.  The call returns that credential, and on a disk that
    takes the write the token file of a token document holds exactly it. *)
Theorem exchange_installs_document (self : SmartAuth.Obj) (w : World)
    (code : string) (r : Response) (o : JsonObject) :
  answer w (Sends.exchange self code) = Reply r ->
  ok r = true ->
  body r = Stringified o ->
  let w' := after_fetch w (Sends.exchange self code) in
  let doc := asTokenResponse o in
  exists tok s',
    SmartAuth.exchangeCodeForToken code (mkSt self w) = (Ok (Object tok), s')
    /\ SmartAuth.currentToken (this s') = Object tok
    /\ access_token tok = access_token doc
    /\ token_type tok = token_type doc
    /\ expires_in tok = expires_in doc
    /\ refresh_token tok = refresh_token doc
    /\ issued_at tok = (if truthy (issued_at doc) then issued_at doc else Some (now w'))
    /\ (writable w = true -> o = JToken doc ->
        files (world s') !! SmartAuth.tokenStorage self
        = Some (File (JSON_stringify (JToken tok)))).
Proof.
  intros Hans Hok Hbody w' doc.
  rewrite exchange_run. cbv zeta. rewrite Hans, Hok, Hbody. fold w'.
  cbn [accepted]. fold doc.
  unfold installed. eexists. eexists. split; [reflexivity |].
  cbn [this world SmartAuth.currentToken SmartAuth.with_currentToken].
  split; [reflexivity |].
  destruct (stamped_fields (now w') doc) as (Ha & Hk & He & Hr & Hi).
  repeat (split; [assumption |]).
  intros Hw _. now apply files_persisted.
Qed.

Lemma exchange_installs_document_witness :
  let self := Sample.manager (Object (Sample.credential (Some "R1"))) in
  let w := Sample.world 5 (Sample.always 200 (Stringified (JToken Sample.renewed))) in
  let r := {| status := 200; statusText := "-";
              body := Stringified (JToken Sample.renewed) |} in
  answer w (Sends.exchange self "abc") = Reply r
  /\ ok r = true
  /\ exists tok s',
       SmartAuth.exchangeCodeForToken "abc" (mkSt self w) = (Ok (Object tok), s')
       /\ SmartAuth.currentToken (this s') = Object tok
       /\ access_token tok = Some "A2"
       /\ token_type tok = Some "Bearer"
       /\ expires_in tok = Some 3600
       /\ refresh_token tok = Some "R2"
       /\ issued_at tok = Some 12
       /\ (writable w = true -> JToken Sample.renewed = JToken Sample.renewed ->
           files (world s') !! SmartAuth.tokenStorage self
           = Some (File (JSON_stringify (JToken tok)))).
Proof.
  intros self w r.
  split; [reflexivity |]. split; [reflexivity |].
  exact (exchange_installs_document self w "abc" r (JToken Sample.renewed)
           eq_refl eq_refl eq_refl).
Defined.

(** X10.  A refresh does not carry the old refresh token over: when the
    token endpoint's 2xx document has no refresh token, what the manager
    then holds has none, and a further [refreshToken()] without argument
    fails with 'No refresh token available'.  When the document is a JSON
    object, the manager holds a credential with the refresh token of that
    object (none, or an empty one). *)
Theorem refresh_drops_refresh_token (self : SmartAuth.Obj) (w : World)
    (arg : option string) (r : Response) (j : Json) :
  truthy (tokenToUse self arg) = true ->
  answer w (Sends.refresh self (tokenToUse self arg)) = Reply r ->
  ok r = true ->
  body r = Stringified j ->
  truthy (refresh_token (view (hold j))) = false ->
  let s1 := snd (SmartAuth.refreshToken arg (mkSt self w)) in
  refresh_token (view (SmartAuth.currentToken (this s1))) = refresh_token (view (hold j))
  /\ (forall o, j = JObject o ->
      exists tok, SmartAuth.currentToken (this s1) = Object tok
                  /\ refresh_token tok = refresh_token (asTokenResponse o))
  /\ forall w2, SmartAuth.refreshToken None (mkSt (this s1) w2)
                = (Throw NoRefreshToken, mkSt (this s1) w2).
Proof.
  intros Htok Hans Hok Hbody Hnone s1.
  set (w' := after_fetch w (Sends.refresh self (tokenToUse self arg))).
  assert (Hs1 : s1 = snd (accepted self j w')).
  { unfold s1. rewrite refreshToken_run by exact Htok. cbv zeta.
    now rewrite Hans, Hok, Hbody. }
  assert (Hview : refresh_token (view (SmartAuth.currentToken (this s1)))
                  = refresh_token (view (hold j))).
  { rewrite Hs1. destruct j as [o | | p | items]; cbn [accepted hold]; try reflexivity.
    unfold installed.
    cbn [snd this SmartAuth.currentToken SmartAuth.with_currentToken view].
    apply stamped_fields. }
  split; [exact Hview |]. split.
  - intros o ->. rewrite Hs1. cbn [accepted]. unfold installed.
    cbn [snd this SmartAuth.currentToken SmartAuth.with_currentToken].
    eexists. split; [reflexivity |]. apply stamped_fields.
  - intros w2. apply refreshToken_nothing.
    unfold tokenToUse, js_or. cbn [truthy truthy_option].
    now rewrite Hview, Hnone.
Qed.

Lemma refresh_drops_refresh_token_witness :
  let self := Sample.manager (Object (Sample.credential (Some "R1"))) in
  let doc := Sample.credential None in
  let w := Sample.world 5 (Sample.always 200 (Stringified (JToken doc))) in
  let s1 := snd (SmartAuth.refreshToken None (mkSt self w)) in
  truthy (tokenToUse self None) = true
  /\ truthy (refresh_token (view (hold (JToken doc)))) = false
  /\ (exists tok, SmartAuth.currentToken (this s1) = Object tok
                  /\ refresh_token tok = None)
  /\ forall w2, SmartAuth.refreshToken None (mkSt (this s1) w2)
                = (Throw NoRefreshToken, mkSt (this s1) w2).
Proof.
  intros self doc w s1.
  split; [reflexivity |]. split; [reflexivity |].
  destruct (refresh_drops_refresh_token self w None
              {| status := 200; statusText := "-"; body := Stringified (JToken doc) |}
              (JToken doc) eq_refl eq_refl eq_refl eq_refl eq_refl)
    as (_ & Hobj & Hlater).
  split; [exact (Hobj (JToken doc) eq_refl) | exact Hlater].
Defined.

(** X11.  [refreshToken] prefers its argument: a non-empty argument is the
    refresh token sent, whatever the live credential holds (even none); an
    absent or empty argument falls back to the live credential's refresh
    token.  Either way exactly one request goes to the token endpoint. *)
Theorem refresh_argument_first (self : SmartAuth.Obj) (w : World)
    (arg : option string) :
  let after := sent (world (snd (SmartAuth.refreshToken arg (mkSt self w)))) in
  (truthy arg = true -> after = sent w ++ [Sends.refresh self arg])
  /\ (truthy arg = false ->
      forall tok, SmartAuth.currentToken self = Object tok ->
                  truthy (refresh_token tok) = true ->
                  after = sent w ++ [Sends.refresh self (refresh_token tok)]).
Proof.
  cbv zeta. split.
  - intros Harg. rewrite refreshToken_sends; rewrite tokenToUse_arg; auto.
  - intros Harg tok Hc Hrt.
    assert (Huse : tokenToUse self arg = refresh_token tok).
    { unfold tokenToUse, js_or. now rewrite Harg, Hc. }
    rewrite refreshToken_sends; rewrite Huse; auto.
Qed.

Lemma refresh_argument_first_witness :
  let self := Sample.manager Null in
  let w := Sample.world 5 (Sample.always 200 (Stringified (JToken Sample.renewed))) in
  truthy (Some "R9") = true
  /\ sent (world (snd (SmartAuth.refreshToken (Some "R9") (mkSt self w))))
     = sent w ++ [Sends.refresh self (Some "R9")].
Proof.
  intros self w. split; [reflexivity |].
  exact (proj1 (refresh_argument_first self w (Some "R9")) eq_refl).
Defined.

(** X12.  The constructor only reads: it leaves the world as it found it
    (nothing written, nothing sent).  It fails, with the [TypeError] of
    [new URL], only when no non-empty [baseUrl] is given and the authorize
    URL has no origin; otherwise the manager it builds holds what the token
    file holds (the parsed document; nothing when there is no usable file),
    and a read on a manager built without a token file, or from a token
    file holding [null], fails with 'No token available'. *)
Theorem constructor_only_reads (URL_origin : string -> option string)
    (options : SmartAuth.Options) (w : World) :
  snd (SmartAuth.constructor URL_origin options w) = w
  /\ match fst (SmartAuth.constructor URL_origin options w) with
     | Ok self =>
         SmartAuth.currentToken self = loaded (files w !! token_path w)
         /\ SmartAuth.tokenStorage self = token_path w
         /\ (files w !! token_path w = None
             \/ files w !! token_path w = Some (File (Stringified JNull)) ->
             forall w2, SmartAuth.getAccessToken (mkSt self w2)
                        = (Throw NoCredential, mkSt self w2))
     | Throw e =>
         e = TypeError "Invalid URL"
         /\ truthy (SmartAuth.o_baseUrl options) = false
         /\ URL_origin (SmartAuth.o_authorizeUrl options) = None
     end.
Proof.
  destruct (base_of URL_origin options) as [b |] eqn:Hb.
  - rewrite (constructor_run _ _ _ b Hb). cbn [fst snd].
    split; [reflexivity |]. split; [reflexivity |]. split; [reflexivity |].
    intros Hnone w2. apply getAccessToken_none.
    cbn [SmartAuth.currentToken SmartAuth.with_currentToken].
    destruct Hnone as [-> | ->]; reflexivity.
  - rewrite (constructor_fails _ _ _ Hb). cbn [fst snd].
    split; [reflexivity |]. split; [reflexivity |].
    unfold base_of in Hb.
    destruct (truthy (SmartAuth.o_baseUrl options)) eqn:Ht.
    + destruct (SmartAuth.o_baseUrl options); [discriminate Hb | discriminate Ht].
    + now split.
Qed.

Lemma constructor_only_reads_witness :
  let w := Sample.world 5 (Sample.always 200 (Plain "-")) in
  files w !! token_path w = None
  /\ exists self,
       SmartAuth.constructor (fun _ => None) Sample.options w = (Ok self, w)
       /\ forall w2, SmartAuth.getAccessToken (mkSt self w2)
                     = (Throw NoCredential, mkSt self w2).
Proof.
  intros w. split; [reflexivity |].
  exists (fresh Sample.options "https://auth.example.org" w).
  split; [reflexivity |].
  exact (proj2 (proj2 (proj2 (constructor_only_reads (fun _ => None) Sample.options w)))
           (or_introl eq_refl)).
Defined.

Lemma far_from_expiry tok e i t :
  expires_in tok = Some e -> issued_at tok = Some i ->
  300 <= e -> t <= i + e * 1000 - margin ->
  near_expiry tok t = false.
Proof.
  intros He Hi Hge Ht. unfold near_expiry, expiresAt. rewrite He, Hi.
  rewrite truthy_Some_Z by lia. unfold js_or.
  apply Bool.andb_false_iff. right.
  destruct (truthy (Some i)); cbn [SmartAuth.num default from_option id];
    rewrite Z.gtb_ltb; apply Z.ltb_ge; unfold margin in Ht; lia.
Qed.

(** X13.  The refresh test is strict and covers every clock value.  For a
    live credential with [expires_in] and [issued_at] set (non-zero, with
    a non-zero horizon, of a magnitude the doubles of the code represent
    exactly): at every clock value up to and including horizon minus five
    minutes a read returns the stored token and changes nothing; at every
    later clock value it sends the refresh grant if a refresh token is
    stored and fails with 'Token is expired and no refresh token is
    available' if not. *)
Theorem refresh_threshold_is_strict (self : SmartAuth.Obj) (tok : TokenResponse)
    (w : World) (e i : Z) :
  SmartAuth.currentToken self = Object tok ->
  expires_in tok = Some e -> issued_at tok = Some i ->
  e <> 0 -> i <> 0 -> i + e * 1000 <> 0 ->
  exact e i -> representable (now w) ->
  (now w <= i + e * 1000 - margin ->
     SmartAuth.getAccessToken (mkSt self w) = (Ok (access_token tok), mkSt self w))
  /\ (i + e * 1000 - margin < now w ->
      (truthy (refresh_token tok) = true ->
         sent (world (snd (SmartAuth.getAccessToken (mkSt self w))))
         = sent w ++ [Sends.refresh self (refresh_token tok)])
      /\ (truthy (refresh_token tok) = false ->
          SmartAuth.getAccessToken (mkSt self w)
          = (Throw TokenExpiredNoRefresh, mkSt self w))).
Proof.
  intros Hc He Hi He0 Hi0 Hh _ _.
  pose proof (near_expiry_horizon tok e i (now w) He Hi He0 Hi0 Hh) as Hnear.
  split.
  - intros Hle. rewrite (getAccessToken_live self tok w Hc), Hnear.
    replace (now w >? i + e * 1000 - margin) with false; [reflexivity |].
    symmetry. rewrite Z.gtb_ltb. apply Z.ltb_ge. lia.
  - intros Hlt.
    assert (Hstale : near_expiry tok (now w) = true).
    { rewrite Hnear, Z.gtb_ltb. apply Z.ltb_lt. lia. }
    split; intros Hrt.
    + exact (getAccessToken_refreshing_sends self tok w Hc Hstale Hrt).
    + now rewrite (getAccessToken_live self tok w Hc), Hstale, Hrt.
Qed.

Lemma refresh_threshold_is_strict_witness :
  let tok := Sample.credential (Some "R1") in
  let self := Sample.manager (Object tok) in
  let w := Sample.world (1000000 + 3600 * 1000 - margin)
             (Sample.always 200 (Stringified (JToken Sample.renewed))) in
  exact 3600 1000000
  /\ representable (now w)
  /\ now w <= 1000000 + 3600 * 1000 - margin
  /\ SmartAuth.getAccessToken (mkSt self w) = (Ok (Some "A1"), mkSt self w).
Proof.
  intros tok self w.
  assert (Hexact : exact 3600 1000000) by (vm_compute; split; discriminate).
  assert (Hclock : representable (now w)) by (vm_compute; discriminate).
  split; [exact Hexact |]. split; [exact Hclock |]. split; [cbn; lia |].
  apply (proj1 (refresh_threshold_is_strict self tok w 3600 1000000
                  eq_refl eq_refl eq_refl ltac:(lia) ltac:(lia) ltac:(lia)
                  Hexact Hclock)).
  cbn. lia.
Defined.

(** X14.  Signing in and then reading: after a [signIn] answered with a 2xx
    JSON document other than [null] whose expiry is absent (so 3600
    seconds) or at least 300 seconds, a read at any clock value up to five
    minutes before the new horizon returns the access token just stored
    ([token] or else [access_token] of the reply) and sends nothing.  The
    clock value of the sign-in is not zero, and the magnitudes are those
    the doubles of the code represent exactly. *)
Theorem signIn_then_read (self : SmartAuth.Obj) (w : World)
    (username password : string) (r : Response) (j : Json)
    (d : SignInResponse) (e : Z) :
  answer w (Sends.sign_in self username password) = Reply r ->
  ok r = true ->
  body r = Stringified j ->
  reply_properties j = Some d ->
  (sr_expires_in d = None /\ e = 3600 \/ sr_expires_in d = Some e) ->
  300 <= e ->
  let s1 := snd (SmartAuth.signIn username password (mkSt self w)) in
  now (world s1) <> 0 ->
  exact e (now (world s1)) ->
  forall w2,
    representable (now w2) ->
    now w2 <= now (world s1) + e * 1000 - margin ->
    SmartAuth.getAccessToken (mkSt (this s1) w2)
    = (Ok (if truthy (sr_token d) then sr_token d else sr_access_token d),
       mkSt (this s1) w2).
Proof.
  intros Hans Hok Hbody Hd Hexp Hge s1 Hclock0 _ w2 _ Hnow.
  set (w' := after_fetch w (Sends.sign_in self username password)) in *.
  set (tok0 := mkTokenResponse
                 (js_or (sr_token d) (sr_access_token d))
                 (js_or (sr_token_type d) (Some "Bearer"))
                 (js_or (sr_expires_in d) (Some 3600))
                 (sr_refresh_token d) None None None (Some (now w'))).
  assert (Hs1 : s1 = snd (installed self tok0 w')).
  { unfold s1. rewrite signIn_run. cbv zeta. now rewrite Hans, Hok, Hbody, Hd. }
  assert (Hclock : now (world s1) = now w').
  { rewrite Hs1. unfold installed. cbn [snd world]. apply now_persisted. }
  assert (Hthis : this s1
                  = SmartAuth.with_currentToken (Object (stamped (now w') tok0)) self).
  { now rewrite Hs1. }
  rewrite Hclock in Hnow, Hclock0. rewrite Hthis.
  destruct (stamped_fields (now w') tok0) as (Ha & _ & He & _ & Hi).
  assert (He' : expires_in (stamped (now w') tok0) = Some e).
  { rewrite He. cbn [expires_in tok0]. unfold js_or.
    destruct Hexp as [[Hnone ->] | Hsome].
    - now rewrite Hnone.
    - rewrite Hsome. now rewrite truthy_Some_Z by lia. }
  assert (Hi' : issued_at (stamped (now w') tok0) = Some (now w')).
  { rewrite Hi. cbn [issued_at tok0]. now destruct (truthy (Some (now w'))). }
  rewrite (getAccessToken_live _ (stamped (now w') tok0) w2) by reflexivity.
  rewrite (far_from_expiry _ e (now w') (now w2) He' Hi' Hge Hnow).
  now rewrite Ha.
Qed.

Lemma signIn_then_read_witness :
  let self := Sample.manager Null in
  let d := {| sr_token := Some "T1"; sr_access_token := None; sr_token_type := None;
              sr_expires_in := Some 3600; sr_refresh_token := None |} in
  let r := {| status := 200; statusText := "-"; body := Stringified (JSignIn d) |} in
  let w := Sample.world 5 (Sample.always 200 (Stringified (JSignIn d))) in
  let s1 := snd (SmartAuth.signIn "a" "b" (mkSt self w)) in
  answer w (Sends.sign_in self "a" "b") = Reply r
  /\ ok r = true
  /\ reply_properties (JSignIn d) = Some d
  /\ now (world s1) <> 0
  /\ exact 3600 (now (world s1))
  /\ representable (now (world s1))
  /\ SmartAuth.getAccessToken (mkSt (this s1) (world s1))
     = (Ok (Some "T1"), mkSt (this s1) (world s1)).
Proof.
  intros self d r w s1.
  assert (Hclock0 : now (world s1) <> 0) by (vm_compute; discriminate).
  assert (Hexact : exact 3600 (now (world s1))) by (vm_compute; split; discriminate).
  assert (Hclock : representable (now (world s1))) by (vm_compute; discriminate).
  split; [reflexivity |]. split; [reflexivity |]. split; [reflexivity |].
  split; [exact Hclock0 |]. split; [exact Hexact |]. split; [exact Hclock |].
  apply (signIn_then_read self w "a" "b" r (JSignIn d) d 3600
           eq_refl eq_refl eq_refl eq_refl).
  - right. reflexivity.
  - lia.
  - exact Hclock0.
  - exact Hexact.
  - exact Hclock.
  - vm_compute. discriminate.
Defined.

(* ===================================================================== *)
(** ** More on the FHIR client and its tools *)
(* ===================================================================== *)

(** X15.  [executeQuery] never sends a query without a token: either it
    fails with 'No access token available' having sent nothing of its own
    (the state is the one the token lookup left), or it sends exactly one
    request, whose Authorization header is [Bearer] followed by a
    non-empty token. *)
Theorem executeQuery_needs_token (fc : FhirClient.Obj) (w : World) (query : string) :
  let run := FhirClient.executeQuery query (mkSt fc w) in
  (run = (Throw NoAccessToken, snd (pick fc w)))
  \/ exists token,
       truthy token = true
       /\ sends_with (sent (world (snd (pick fc w)))) (sent (world (snd run)))
            (FhirClient.bearer token).
Proof.
  cbv zeta. rewrite executeQuery_run.
  destruct (pick fc w) as [src s]. cbn [snd].
  destruct (truthy (query_token src)) eqn:Htok.
  - right. exists (query_token src). split; [exact Htok |].
    eexists. split; [reflexivity |]. apply lookup_insert_eq.
  - left. reflexivity.
Qed.

Lemma request_headers_other options src k :
  k <> "Authorization" ->
  request_headers options src !! k
  = match default ∅ (FhirClient.ri_headers options) !! k with
    | Some v => Some v
    | None => FhirClient.default_headers !! k
    end.
Proof.
  intros Hk.
  assert (Hunion :
    (default ∅ (FhirClient.ri_headers options) ∪ FhirClient.default_headers) !! k
    = match default ∅ (FhirClient.ri_headers options) !! k with
      | Some v => Some v
      | None => FhirClient.default_headers !! k
      end).
  { destruct (default ∅ (FhirClient.ri_headers options) !! k) as [v |] eqn:Hl.
    - now apply lookup_union_Some_l.
    - now apply lookup_union_r. }
  unfold request_headers.
  destruct src; cbv zeta; rewrite ?lookup_insert_ne by congruence; exact Hunion.
Qed.

(** X16.  The shape of what [request] sends.  If the path does not resolve
    against the base URL the call fails with the [TypeError] of [new URL]
    before the manager is consulted: nothing changes.  Otherwise exactly
    one request follows the token lookup; it goes to the resolved URL with
    the caller's method and body; for every header other than
    Authorization the caller's value wins and 'application/fhir+json' is
    the default of Accept and Content-Type; and when no token is available
    the caller's own Authorization header, if any, is sent as it is. *)
Theorem request_shape (URL_resolve : string -> string -> option string)
    (fc : FhirClient.Obj) (w : World) (path : string)
    (options : FhirClient.RequestInit) :
  let run := FhirClient.request URL_resolve path options (mkSt fc w) in
  let given := default ∅ (FhirClient.ri_headers options) in
  match URL_resolve path (FhirClient.baseUrl fc) with
  | None => run = (Throw (TypeError "Invalid URL"), mkSt fc w)
  | Some url =>
      exists req,
        sent (world (snd run)) = sent (world (snd (pick fc w))) ++ [req]
        /\ req_url req = url
        /\ req_method req = FhirClient.ri_method options
        /\ req_body req = FhirClient.ri_body options
        /\ (forall k v, k <> "Authorization" -> given !! k = Some v ->
                        req_headers req !! k = Some v)
        /\ (given !! "Accept" = None ->
            req_headers req !! "Accept" = Some "application/fhir+json")
        /\ (given !! "Content-Type" = None ->
            req_headers req !! "Content-Type" = Some "application/fhir+json")
        /\ (fst (pick fc w) = NoToken ->
            req_headers req !! "Authorization" = given !! "Authorization")
  end.
Proof.
  cbv zeta.
  destruct (URL_resolve path (FhirClient.baseUrl fc)) as [url |] eqn:Hurl.
  - destruct (pick fc w) as [src s] eqn:Hpick.
    exists (Calls.request url options src).
    split; [exact (request_sends _ _ _ _ _ _ _ _ Hurl Hpick) |].
    cbn [Calls.request req_url req_method req_body req_headers fst].
    split; [reflexivity |]. split; [reflexivity |]. split; [reflexivity |].
    split; [| split; [| split]].
    + intros k v Hk Hgiven. rewrite (request_headers_other options src k Hk).
      now rewrite Hgiven.
    + intros Hnone. rewrite request_headers_other by discriminate.
      now rewrite Hnone.
    + intros Hnone. rewrite request_headers_other by discriminate.
      now rewrite Hnone.
    + intros ->. unfold request_headers.
      destruct (default ∅ (FhirClient.ri_headers options) !! "Authorization")
        as [v |] eqn:Hl.
      * now apply lookup_union_Some_l.
      * rewrite lookup_union_r by exact Hl. reflexivity.
  - unfold FhirClient.request.
    unfold bind at 1. unfold get_this at 1. cbv beta iota. cbn [this world].
    now rewrite Hurl.
Qed.

Lemma request_shape_witness :
  let fc := FhirClient.constructor "https://fhir.example.org/" None in
  let w := Sample.world 5 (Sample.always 200 (Stringified (JOther "{}"))) in
  let options := {| FhirClient.ri_method := Some "GET";
                    FhirClient.ri_headers :=
                      Some {[ "Accept" := "application/json" ]};
                    FhirClient.ri_body := None |} in
  let run := FhirClient.request Sample.resolve "Patient/1" options (mkSt fc w) in
  exists req,
    sent (world (snd run)) = [req]
    /\ req_url req = "https://fhir.example.org/Patient/1"
    /\ req_headers req !! "Accept" = Some "application/json"
    /\ req_headers req !! "Content-Type" = Some "application/fhir+json"
    /\ req_headers req !! "Authorization" = None.
Proof.
  intros fc w options run.
  destruct (request_shape Sample.resolve fc w "Patient/1" options)
    as (req & Hsent & Hurl & _ & _ & Hgiven & _ & Hct & Hauth).
  exists req. split; [exact Hsent |]. split; [exact Hurl |].
  split; [apply Hgiven; [discriminate | vm_compute; reflexivity] |].
  split; [apply Hct; vm_compute; reflexivity |].
  rewrite Hauth by reflexivity. vm_compute; reflexivity.
Defined.

Lemma caught_run {T A B} (m : M T A) (f : A -> B) (g : Error -> B) (s : St T) :
  try_catch (x <- m ;; ret (f x)) (fun e => ret (g e)) s
  = match m s with
    | (Ok a, s') => (Ok (f a), s')
    | (Throw e, s') => (Ok (g e), s')
    end.
Proof.
  unfold try_catch, bind, ret. destruct (m s) as [[a | e] s']; reflexivity.
Qed.

Lemma get_patient_summary_rejects_nothing URL_resolve patientId :
  never_rejects (FhirTools.get_patient_summary URL_resolve patientId).
Proof.
  intros s. unfold FhirTools.get_patient_summary, try_catch, bind, ret.
  destruct (FhirClient.getPatient _ _ s) as [[p | e] s1]; [| eauto].
  destruct (FhirClient.getPatientConditions _ _ s1) as [[c | e] s2]; [| eauto].
  destruct (FhirClient.getPatientMedications _ _ s2) as [[m | e] s3]; [| eauto].
  destruct (FhirClient.getPatientAllergies _ _ s3) as [[a | e] s4]; [| eauto].
  destruct (FhirClient.getPatientObservations _ _ _ s4) as [[o | e] s5]; eauto.
Qed.

(** X17.  No failure escapes the handlers [get_observation],
    [set_access_token], [execute_query] and [get_patient_summary]: each
    resolves in every state.  For the first and the third the result is
    flagged [isError], carrying the failure, exactly when the client call
    failed, and holds the document the call returned otherwise;
    [set_access_token] succeeds without sending anything. *)
Theorem handlers_never_reject (URL_resolve : string -> string -> option string) :
  (forall patientId code,
     never_rejects (FhirTools.get_observation URL_resolve patientId code)
     /\ forall s,
          FhirTools.get_observation URL_resolve patientId code s
          = match FhirClient.request URL_resolve
                    ("Observation?patient=" +:+ patientId +:+ "&code=" +:+ code)
                    FhirClient.no_options s with
            | (Ok j, s') => (Ok (FhirTools.success (FhirTools.Pretty j)), s')
            | (Throw e, s') => (Ok (FhirTools.failure e), s')
            end)
  /\ (forall query,
        never_rejects (FhirTools.execute_query query)
        /\ forall s,
             FhirTools.execute_query query s
             = match FhirClient.executeQuery query s with
               | (Ok j, s') => (Ok (FhirTools.success (FhirTools.Pretty j)), s')
               | (Throw e, s') => (Ok (FhirTools.failure e), s')
               end)
  /\ (forall token fc w,
        exists fc',
          FhirTools.set_access_token token (mkSt fc w)
          = (Ok (FhirTools.success FhirTools.PrettySuccess), mkSt fc' w)
          /\ FhirClient.accessToken fc' = Some token
          /\ FhirClient.smartAuth fc' = FhirClient.smartAuth fc
          /\ FhirClient.baseUrl fc' = FhirClient.baseUrl fc)
  /\ (forall patientId,
        never_rejects (FhirTools.get_patient_summary URL_resolve patientId)).
Proof.
  split; [| split; [| split]].
  - intros patientId code.
    assert (Hrun : forall s,
      FhirTools.get_observation URL_resolve patientId code s
      = match FhirClient.request URL_resolve
                ("Observation?patient=" +:+ patientId +:+ "&code=" +:+ code)
                FhirClient.no_options s with
        | (Ok j, s') => (Ok (FhirTools.success (FhirTools.Pretty j)), s')
        | (Throw e, s') => (Ok (FhirTools.failure e), s')
        end).
    { intros s. unfold FhirTools.get_observation. apply caught_run. }
    split; [| exact Hrun].
    intros s. rewrite Hrun.
    destruct (FhirClient.request _ _ _ s) as [[j | e] s']; eauto.
  - intros query.
    assert (Hrun : forall s,
      FhirTools.execute_query query s
      = match FhirClient.executeQuery query s with
        | (Ok j, s') => (Ok (FhirTools.success (FhirTools.Pretty j)), s')
        | (Throw e, s') => (Ok (FhirTools.failure e), s')
        end).
    { intros s. unfold FhirTools.execute_query. apply caught_run. }
    split; [| exact Hrun].
    intros s. rewrite Hrun.
    destruct (FhirClient.executeQuery _ s) as [[j | e] s']; eauto.
  - intros token fc w. eexists. split; [reflexivity |]. repeat split.
  - intros patientId. apply get_patient_summary_rejects_nothing.
Qed.

Lemma in_turn_nil {T A} (s : St T) : @in_turn T A [] s = (Ok [], s).
Proof. reflexivity. Qed.

Lemma in_turn_cons {T A} (call : M T A) rest (s : St T) :
  in_turn (call :: rest) s
  = match call s with
    | (Ok x, s1) =>
        match in_turn rest s1 with
        | (Ok xs, s2) => (Ok (x :: xs), s2)
        | (Throw e, s2) => (Throw e, s2)
        end
    | (Throw e, s1) => (Throw e, s1)
    end.
Proof.
  cbn [in_turn]. unfold bind, ret.
  destruct (call s) as [[x | e] s1]; [| reflexivity].
  destruct (in_turn rest s1) as [[xs | e] s2]; reflexivity.
Qed.

Lemma get_patient_summary_steps URL_resolve patientId (s : St FhirClient.Obj) :
  FhirTools.get_patient_summary URL_resolve patientId s =
  match FhirClient.getPatient URL_resolve patientId s with
  | (Throw e, s1) => (Ok (FhirTools.failure e), s1)
  | (Ok p, s1) =>
  match FhirClient.getPatientConditions URL_resolve patientId s1 with
  | (Throw e, s2) => (Ok (FhirTools.failure e), s2)
  | (Ok c, s2) =>
  match FhirClient.getPatientMedications URL_resolve patientId s2 with
  | (Throw e, s3) => (Ok (FhirTools.failure e), s3)
  | (Ok m, s3) =>
  match FhirClient.getPatientAllergies URL_resolve patientId s3 with
  | (Throw e, s4) => (Ok (FhirTools.failure e), s4)
  | (Ok a, s4) =>
  match FhirClient.getPatientObservations URL_resolve patientId None s4 with
  | (Throw e, s5) => (Ok (FhirTools.failure e), s5)
  | (Ok o, s5) => (Ok (FhirTools.success (FhirTools.PrettySummary p c m a o)), s5)
  end end end end end.
Proof.
  unfold FhirTools.get_patient_summary, try_catch, bind, ret.
  destruct (FhirClient.getPatient _ _ s) as [[p | e] s1]; [| reflexivity].
  destruct (FhirClient.getPatientConditions _ _ s1) as [[c | e] s2]; [| reflexivity].
  destruct (FhirClient.getPatientMedications _ _ s2) as [[m | e] s3]; [| reflexivity].
  destruct (FhirClient.getPatientAllergies _ _ s3) as [[a | e] s4]; [| reflexivity].
  destruct (FhirClient.getPatientObservations _ _ _ s4) as [[o | e] s5]; reflexivity.
Qed.

Lemma get_patient_summary_in_turn URL_resolve patientId (s : St FhirClient.Obj) :
  match in_turn (summary_calls URL_resolve patientId) s with
  | (Ok [p; c; m; a; o], s') =>
      FhirTools.get_patient_summary URL_resolve patientId s
      = (Ok (FhirTools.success (FhirTools.PrettySummary p c m a o)), s')
  | (Ok _, _) => False
  | (Throw e, s') =>
      FhirTools.get_patient_summary URL_resolve patientId s
      = (Ok (FhirTools.failure e), s')
  end.
Proof.
  rewrite get_patient_summary_steps.
  unfold summary_calls. rewrite in_turn_cons.
  destruct (FhirClient.getPatient _ _ s) as [[p | e] s1]; [| reflexivity].
  rewrite in_turn_cons.
  destruct (FhirClient.getPatientConditions _ _ s1) as [[c | e] s2]; [| reflexivity].
  rewrite in_turn_cons.
  destruct (FhirClient.getPatientMedications _ _ s2) as [[m | e] s3]; [| reflexivity].
  rewrite in_turn_cons.
  destruct (FhirClient.getPatientAllergies _ _ s3) as [[a | e] s4]; [| reflexivity].
  rewrite in_turn_cons.
  destruct (FhirClient.getPatientObservations _ _ _ s4) as [[o | e] s5]; reflexivity.
Qed.

Lemma in_turn_stops {T A} (before : list (M T A)) (call : M T A)
    (after : list (M T A)) (s s1 s2 : St T) (xs : list A) (e : Error) :
  in_turn before s = (Ok xs, s1) ->
  call s1 = (Throw e, s2) ->
  in_turn (before ++ call :: after) s = (Throw e, s2).
Proof.
  revert s xs. induction before as [| b before IH]; intros s xs Hbefore Hcall.
  - rewrite in_turn_nil in Hbefore. injection Hbefore as _ <-.
    change ([] ++ call :: after) with (call :: after).
    rewrite in_turn_cons. now rewrite Hcall.
  - change ((b :: before) ++ call :: after) with (b :: (before ++ call :: after)).
    rewrite in_turn_cons. rewrite in_turn_cons in Hbefore.
    destruct (b s) as [[x | e'] s'] ; [| discriminate].
    destruct (in_turn before s') as [[xs' | e'] s''] eqn:Hrest; [| discriminate].
    injection Hbefore as _ <-.
    now rewrite (IH s' xs' Hrest Hcall).
Qed.

(** X18.  [get_patient_summary] asks for the patient, the conditions, the
    medications, the allergies and the observations in that order and
    stops at the first call that fails: the result is then flagged
    [isError] with that failure and the state is the one the failed call
    left, so none of the later calls is made.  When all five succeed the
    result holds the five documents in that order. *)
Theorem summary_stops_at_first_failure
    (URL_resolve : string -> string -> option string) (patientId : string)
    (s : St FhirClient.Obj) :
  (forall before call after xs s1 e s2,
     summary_calls URL_resolve patientId = before ++ call :: after ->
     in_turn before s = (Ok xs, s1) ->
     call s1 = (Throw e, s2) ->
     FhirTools.get_patient_summary URL_resolve patientId s
     = (Ok (FhirTools.failure e), s2))
  /\ (forall p c m a o s',
        in_turn (summary_calls URL_resolve patientId) s = (Ok [p; c; m; a; o], s') ->
        FhirTools.get_patient_summary URL_resolve patientId s
        = (Ok (FhirTools.success (FhirTools.PrettySummary p c m a o)), s')).
Proof.
  pose proof (get_patient_summary_in_turn URL_resolve patientId s) as Hrun.
  split.
  - intros before call after xs s1 e s2 Hsplit Hbefore Hcall.
    rewrite Hsplit in Hrun.
    now rewrite (in_turn_stops before call after s s1 s2 xs e Hbefore Hcall) in Hrun.
  - intros p c m a o s' Hall. now rewrite Hall in Hrun.
Qed.

Lemma summary_stops_at_first_failure_witness :
  let fc := FhirClient.constructor "https://fhir.example.org/" None in
  let w := Sample.world 5 (Sample.always 404 (Plain "Not Found")) in
  let run := FhirTools.get_patient_summary Sample.resolve "42" (mkSt fc w) in
  FhirClient.getPatient Sample.resolve "42" (mkSt fc w)
  = (Throw (FhirRequestFailed 404 "-"),
     snd (FhirClient.getPatient Sample.resolve "42" (mkSt fc w)))
  /\ run = (Ok (FhirTools.failure (FhirRequestFailed 404 "-")),
            snd (FhirClient.getPatient Sample.resolve "42" (mkSt fc w)))
  /\ length (sent (world (snd run))) = 1%nat.
Proof.
  intros fc w run.
  assert (Hfirst : FhirClient.getPatient Sample.resolve "42" (mkSt fc w)
                   = (Throw (FhirRequestFailed 404 "-"),
                      snd (FhirClient.getPatient Sample.resolve "42" (mkSt fc w))))
    by (vm_compute; reflexivity).
  assert (Hrun := proj1 (summary_stops_at_first_failure Sample.resolve "42" (mkSt fc w))
                    [] _ _ [] (mkSt fc w) _ _ eq_refl eq_refl Hfirst).
  split; [exact Hfirst |]. split; [exact Hrun |].
  unfold run. rewrite Hrun. vm_compute; reflexivity.
Defined.

(* ===================================================================== *)
(** ** More on the Fasten server *)
(* ===================================================================== *)

Lemma isTokenValid_run g w token :
  Fasten.isTokenValid token (mkSt g w)
  = (Ok (probe_says w token), mkSt g (after_fetch w (Calls.probe token))).
Proof.
  unfold Fasten.isTokenValid, try_catch, probe_says.
  unfold bind at 1. rewrite fetch_run. cbv zeta. cbn [this world].
  fold (Calls.probe token).
  destruct (answer w (Calls.probe token)); reflexivity.
Qed.

Lemma probe_says_200 w token :
  probe_says w token = true
  <-> exists r, answer w (Calls.probe token) = Reply r /\ status r = 200.
Proof.
  unfold probe_says. destruct (answer w (Calls.probe token)) as [r | reason].
  - rewrite Z.eqb_eq. split.
    + intros H. now exists r.
    + intros (r' & Hr & H). now injection Hr as <-.
  - split; [discriminate | intros (r' & Hr & _); discriminate].
Qed.

Lemma set_auth_token_run g w token :
  FastenTools.set_auth_token token (mkSt g w)
  = (Ok (FastenTools.Fixed
           (if probe_says w token
            then "Authentication token saved and validated successfully. You can now make requests to the Fasten API."
            else "The provided token appears to be invalid. Please check the token and try again.")),
     mkSt {| Fasten.authToken := if probe_says w token then Some token else None |}
          (after_fetch w (Calls.probe token))).
Proof.
  unfold FastenTools.set_auth_token, bind, Fasten.set_authToken, set_this, ret.
  cbn [this world]. rewrite isTokenValid_run.
  destruct (probe_says w token); reflexivity.
Qed.

Lemma check_auth_status_run g w :
  truthy (Fasten.authToken g) = true ->
  FastenTools.check_auth_status (mkSt g w)
  = (Ok (FastenTools.Fixed
           (if probe_says w (show (Fasten.authToken g))
            then "You have a valid authentication token for Fasten and can make API requests."
            else "The authentication token is invalid or has expired. Please provide a new token using the 'set-auth-token' tool.")),
     mkSt (if probe_says w (show (Fasten.authToken g)) then g else cleared)
          (after_fetch w (Calls.probe (show (Fasten.authToken g))))).
Proof.
  intros Hg.
  unfold FastenTools.check_auth_status, bind, get_this, Fasten.set_authToken,
    set_this, ret.
  cbn [this world]. rewrite Hg. cbv [negb]. rewrite isTokenValid_run.
  destruct (probe_says w _); reflexivity.
Qed.

Lemma check_auth_status_unset g w :
  truthy (Fasten.authToken g) = false ->
  FastenTools.check_auth_status (mkSt g w)
  = (Ok (FastenTools.Fixed "No authentication token is currently set. Please set a token using the 'set-auth-token' tool."),
     mkSt g w).
Proof.
  intros Hg. unfold FastenTools.check_auth_status, bind, get_this, ret.
  cbn [this world]. now rewrite Hg.
Qed.

(** X19.  [set-auth-token] always answers, after exactly one probe.  The
    module keeps the new token exactly when the probe came back with
    status 200; in every other case (another status, a network failure)
    the module is left without any token, also when a token was set
    before the call. *)
Theorem set_auth_token_keeps_only_valid (g : Fasten.Globals) (w : World)
    (token : string) :
  let run := FastenTools.set_auth_token token (mkSt g w) in
  (exists sentence, fst run = Ok (FastenTools.Fixed sentence))
  /\ Fasten.authToken (this (snd run))
     = (if probe_says w token then Some token else None)
  /\ sent (world (snd run)) = sent w ++ [Calls.probe token]
  /\ (probe_says w token = true
      <-> exists r, answer w (Calls.probe token) = Reply r /\ status r = 200).
Proof.
  cbv zeta. rewrite set_auth_token_run. cbn [fst snd this world Fasten.authToken].
  split; [eexists; reflexivity |]. split; [reflexivity |]. split; [reflexivity |].
  apply probe_says_200.
Qed.

(** X20.  [check-auth-status] sends nothing when no token is set.  With a
    token set it sends one probe and keeps the token exactly when the
    probe came back with status 200: a server error or a network failure
    during the check clears the token. *)
Theorem check_auth_status_clears_unless_200 (g : Fasten.Globals) (w : World) :
  let run := FastenTools.check_auth_status (mkSt g w) in
  (exists sentence, fst run = Ok (FastenTools.Fixed sentence))
  /\ (truthy (Fasten.authToken g) = false -> snd run = mkSt g w)
  /\ (truthy (Fasten.authToken g) = true ->
      sent (world (snd run)) = sent w ++ [Calls.probe (show (Fasten.authToken g))]
      /\ Fasten.authToken (this (snd run))
         = (if probe_says w (show (Fasten.authToken g))
            then Fasten.authToken g else None)).
Proof.
  cbv zeta. destruct (truthy (Fasten.authToken g)) eqn:Hg.
  - rewrite (check_auth_status_run g w Hg). cbn [fst snd this world].
    split; [eexists; reflexivity |]. split; [discriminate |].
    intros _. split; [reflexivity |]. now destruct (probe_says w _).
  - rewrite (check_auth_status_unset g w Hg). cbn [fst snd].
    split; [eexists; reflexivity |]. split; [reflexivity | discriminate].
Qed.

Lemma check_auth_status_clears_unless_200_witness :
  let g := {| Fasten.authToken := Some "T1" |} in
  let w := Sample.world 5 (Sample.always 503 (Plain "down")) in
  let run := FastenTools.check_auth_status (mkSt g w) in
  truthy (Fasten.authToken g) = true
  /\ sent (world (snd run)) = sent w ++ [Calls.probe "T1"]
  /\ Fasten.authToken (this (snd run)) = None.
Proof.
  intros g w run. split; [reflexivity |].
  exact (proj2 (proj2 (check_auth_status_clears_unless_200 g w)) eq_refl).
Defined.




(** X22.  With a token set, [makeAuthenticatedRequest] ends with the token
    either cleared or untouched, and it is cleared exactly when the answer
    has status 401: network failures, other statuses and bodies that are
    not JSON leave it in place. *)
Theorem only_401_clears_token (g : Fasten.Globals) (w : World)
    (endpoint : string) (method : option string) (payload : option Json) :
  truthy (Fasten.authToken g) = true ->
  let after := this (snd (Fasten.makeAuthenticatedRequest endpoint method payload
                            (mkSt g w))) in
  (after = cleared \/ after = g)
  /\ (after = cleared
      <-> exists r, answer w (Calls.authenticated g endpoint method payload) = Reply r
                    /\ status r = 401).
Proof.
  intros Hg. cbv zeta.
  assert (Hne : g <> cleared).
  { intros ->. discriminate Hg. }
  rewrite (makeAuthenticatedRequest_run g w endpoint method payload Hg). cbv zeta.
  destruct (answer w _) as [r | reason].
  - destruct (ok r) eqn:Hok.
    + assert (H401 : status r <> 401).
      { intros H. unfold ok in Hok. rewrite H in Hok. discriminate. }
      assert (Hthis : this (snd (match body r with
                                 | Stringified j0 =>
                                     (Ok j0, mkSt g (after_fetch w
                                        (Calls.authenticated g endpoint method payload)))
                                 | _ => (Throw SyntaxError,
                                         mkSt g (after_fetch w
                                           (Calls.authenticated g endpoint method payload)))
                                 end)) = g) by (destruct (body r); reflexivity).
      rewrite Hthis. split; [now right |]. split; [contradiction |].
      intros (r' & Hr & H). injection Hr as <-. contradiction.
    + destruct (Z.eqb_spec (status r) 401) as [H401 | H401]; cbn [snd this].
      * split; [now left |]. split; [| reflexivity]. intros _. now exists r.
      * split; [now right |]. split; [contradiction |].
        intros (r' & Hr & H). injection Hr as <-. contradiction.
  - cbn [snd this]. split; [now right |]. split; [contradiction |].
    intros (r' & Hr & _). discriminate.
Qed.

Lemma only_401_clears_token_witness :
  let g := {| Fasten.authToken := Some "T1" |} in
  let w := Sample.world 5 (Sample.always 500 (Plain "oops")) in
  truthy (Fasten.authToken g) = true
  /\ this (snd (Fasten.makeAuthenticatedRequest "/secure/summary" None None (mkSt g w)))
     = g.
Proof.
  intros g w. split; [reflexivity |].
  destruct (only_401_clears_token g w "/secure/summary" None None eq_refl)
    as [[Hcleared | Hkept] Hiff]; [| exact Hkept].
  apply Hiff in Hcleared. destruct Hcleared as (r & Hr & H401).
  vm_compute in Hr. injection Hr as <-. discriminate H401.
Defined.

Lemma delete_account_run g w :
  truthy (Fasten.authToken g) = true ->
  FastenTools.delete_account (mkSt g w) =
  let req := Calls.authenticated g "/secure/account/me" (Some "DELETE") None in
  let w' := after_fetch w req in
  match answer w req with
  | NetworkError reason =>
      (Ok (FastenTools.WithError "Error deleting account:" (TransportFailure reason)),
       mkSt g w')
  | Reply r =>
      if ok r
      then match body r with
           | Stringified j =>
               (Ok (FastenTools.WithData "Account deleted successfully:" j),
                mkSt cleared w')
           | Plain _ | Form _ =>
               (Ok (FastenTools.WithError "Error deleting account:" SyntaxError),
                mkSt g w')
           end
      else if status r =? 401
           then (Ok (FastenTools.WithError "Error deleting account:" AuthenticationExpired),
                 mkSt cleared w')
           else (Ok (FastenTools.WithError "Error deleting account:"
                       (ApiRequestFailed (status r))),
                 mkSt g w')
  end.
Proof.
  intros Hg. cbv zeta. unfold FastenTools.delete_account, try_catch.
  unfold bind at 1.
  rewrite (makeAuthenticatedRequest_run g w "/secure/account/me" (Some "DELETE") None Hg).
  cbv zeta.
  destruct (answer w _) as [r | reason]; [| reflexivity].
  destruct (ok r).
  - destruct (body r); reflexivity.
  - destruct (status r =? 401); reflexivity.
Qed.

(** X23.  [delete-account] with a token set always answers, after one
    DELETE request without body to '/secure/account/me'.  The token is
    cleared exactly when the answer has status 401 or is a 2xx answer
    holding JSON.  A 2xx answer whose body is not JSON is reported as an
    error and leaves the token in place. *)
Theorem delete_account_token_fate (g : Fasten.Globals) (w : World) :
  truthy (Fasten.authToken g) = true ->
  let run := FastenTools.delete_account (mkSt g w) in
  let req := Calls.authenticated g "/secure/account/me" (Some "DELETE") None in
  (exists t, fst run = Ok t)
  /\ sent (world (snd run)) = sent w ++ [req]
  /\ req_method req = Some "DELETE"
  /\ req_body req = None
  /\ (this (snd run) = cleared
      <-> exists r, answer w req = Reply r
                    /\ (status r = 401
                        \/ ok r = true /\ exists j, body r = Stringified j))
  /\ (forall r, answer w req = Reply r -> ok r = true ->
        (forall j, body r <> Stringified j) ->
        fst run = Ok (FastenTools.WithError "Error deleting account:" SyntaxError)
        /\ this (snd run) = g).
Proof.
  intros Hg. cbv zeta.
  assert (Hne : g <> cleared) by (intros ->; discriminate Hg).
  rewrite (delete_account_run g w Hg). cbv zeta.
  set (req := Calls.authenticated g "/secure/account/me" (Some "DELETE") None).
  destruct (answer w req) as [r | reason] eqn:Hans.
  - destruct (ok r) eqn:Hok.
    + assert (H401 : status r <> 401).
      { intros H. unfold ok in Hok. rewrite H in Hok. discriminate. }
      destruct (body r) as [t | ps | j] eqn:Hbody; cbn [fst snd this world].
      * split; [eexists; reflexivity |]. split; [reflexivity |].
        split; [reflexivity |]. split; [reflexivity |]. split.
        -- split; [contradiction |].
           intros (r' & Hr & [H | (_ & j & Hj)]); injection Hr as <-;
             [contradiction | congruence].
        -- intros r' Hr _ _. now split.
      * split; [eexists; reflexivity |]. split; [reflexivity |].
        split; [reflexivity |]. split; [reflexivity |]. split.
        -- split; [contradiction |].
           intros (r' & Hr & [H | (_ & j & Hj)]); injection Hr as <-;
             [contradiction | congruence].
        -- intros r' Hr _ _. now split.
      * split; [eexists; reflexivity |]. split; [reflexivity |].
        split; [reflexivity |]. split; [reflexivity |]. split.
        -- split; [| reflexivity]. intros _. exists r. split; [reflexivity |].
           right. split; [exact Hok |]. now exists j.
        -- intros r' Hr _ Hnot. injection Hr as <-. now contradiction (Hnot j).
    + destruct (Z.eqb_spec (status r) 401) as [H401 | H401]; cbn [fst snd this world].
      * split; [eexists; reflexivity |]. split; [reflexivity |].
        split; [reflexivity |]. split; [reflexivity |]. split.
        -- split; [| reflexivity]. intros _. exists r. split; [reflexivity |]. now left.
        -- intros r' Hr Hok'. injection Hr as <-. congruence.
      * split; [eexists; reflexivity |]. split; [reflexivity |].
        split; [reflexivity |]. split; [reflexivity |]. split.
        -- split; [contradiction |].
           intros (r' & Hr & [H | (Hok' & _)]); injection Hr as <-;
             [contradiction | congruence].
        -- intros r' Hr Hok'. injection Hr as <-. congruence.
  - cbn [fst snd this world].
    split; [eexists; reflexivity |]. split; [reflexivity |].
    split; [reflexivity |]. split; [reflexivity |]. split.
    + split; [contradiction |]. intros (r' & Hr & _). discriminate.
    + intros r' Hr. discriminate.
Qed.

Lemma delete_account_token_fate_witness :
  let g := {| Fasten.authToken := Some "T1" |} in
  let w := Sample.world 5 (Sample.always 204 (Plain "")) in
  let run := FastenTools.delete_account (mkSt g w) in
  truthy (Fasten.authToken g) = true
  /\ fst run = Ok (FastenTools.WithError "Error deleting account:" SyntaxError)
  /\ this (snd run) = g.
Proof.
  intros g w run. split; [reflexivity |].
  destruct (delete_account_token_fate g w eq_refl) as (_ & _ & _ & _ & _ & Hbad).
  apply (Hbad {| status := 204; statusText := "-"; body := Plain "" |});
    [reflexivity | reflexivity | discriminate].
Defined.

Lemma get_summary_unset g w :
  truthy (Fasten.authToken g) = false ->
  FastenTools.get_summary (mkSt g w)
  = (Ok (FastenTools.WithError "Error retrieving summary data:" NoAuthToken),
     mkSt g w).
Proof.
  intros Hg. unfold FastenTools.get_summary. rewrite caught_run.
  now rewrite (makeAuthenticatedRequest_unset g w _ _ _ Hg).
Qed.

(** X24.  No failure escapes the Fasten tools [check-auth-status],
    [set-auth-token], [clear-auth-token], [get-summary] and
    [delete-account]: each resolves in every state.  [clear-auth-token]
    sends nothing, and after it [get-summary] reports 'No authentication
    token available' without sending a request, whatever the world then
    looks like. *)
Theorem fasten_tools_never_reject :
  never_rejects FastenTools.check_auth_status
  /\ (forall token, never_rejects (FastenTools.set_auth_token token))
  /\ never_rejects FastenTools.clear_auth_token
  /\ never_rejects FastenTools.get_summary
  /\ never_rejects FastenTools.delete_account
  /\ forall g w,
       snd (FastenTools.clear_auth_token (mkSt g w)) = mkSt cleared w
       /\ forall w2,
            FastenTools.get_summary (mkSt cleared w2)
            = (Ok (FastenTools.WithError "Error retrieving summary data:" NoAuthToken),
               mkSt cleared w2).
Proof.
  split; [| split; [| split; [| split; [| split]]]].
  - intros [g w]. destruct (truthy (Fasten.authToken g)) eqn:Hg.
    + rewrite (check_auth_status_run g w Hg). eauto.
    + rewrite (check_auth_status_unset g w Hg). eauto.
  - intros token [g w]. rewrite set_auth_token_run. eauto.
  - intros [g w]. eexists. eexists. reflexivity.
  - intros s. unfold FastenTools.get_summary. rewrite caught_run.
    destruct (Fasten.makeAuthenticatedRequest _ _ _ s) as [[j | e] s']; eauto.
  - intros s. unfold FastenTools.delete_account, try_catch, bind.
    destruct (Fasten.makeAuthenticatedRequest _ _ _ s) as [[j | e] s']; eauto.
  - intros g w. split; [reflexivity |].
    intros w2. now apply get_summary_unset.
Qed.
